(** * MyStat API client: session manager and request dispatcher

    A shallow embedding of [backend/services/mystat_client.py].  The client
    object, the clock and the provider are made explicit: every method of
    [APIClient] is a computation over the client's attributes that may raise,
    and every interaction with the outside (a read of the clock, an HTTP
    exchange, a call of the [on_unauthorized] handler) is appended to a
    chronological trace, so that statements such as "one refresh before the
    request" or "never a third attempt" are statements about that trace. *)

From Stdlib Require Import ZArith QArith String List Bool Lia.
Import ListNotations.

Local Open Scope string_scope.
Local Open Scope list_scope.
Local Open Scope Z_scope.
Set Warnings "-register-all".

(** ** Python values carried by JSON payloads

    [response.json()] yields Python values; [JNull] is Python's [None].  An
    object keeps its keys in order and is looked up from the front. *)

Inductive Json : Type :=
| JNull
| JBool (b : bool)
| JInt (z : Z)
| JFloat (q : Q)
| JStr (s : string)
| JArr (items : list Json)
| JObj (members : list (string * Json)).

(** Truth value of a Python value, as tested by [if x] and [not x]. *)
Definition truthy (j : Json) : bool :=
  match j with
  | JNull => false
  | JBool b => b
  | JInt z => negb (z =? 0)
  | JFloat q => negb (Qeq_bool q 0)
  | JStr s => negb (String.eqb s "")
  | JArr items => match items with [] => false | _ :: _ => true end
  | JObj members => match members with [] => false | _ :: _ => true end
  end.

Fixpoint assoc (key : string) (members : list (string * Json)) : option Json :=
  match members with
  | [] => None
  | (k, v) :: rest => if String.eqb k key then Some v else assoc key rest
  end.

(** Truth value of an [Optional[str]] and of an [Optional[int]]. *)
Definition truthy_str (o : option string) : bool :=
  match o with Some s => negb (String.eqb s "") | None => false end.

Definition truthy_int (o : option Z) : bool :=
  match o with Some z => negb (z =? 0) | None => false end.

Definition of_optional_int (o : option Z) : Json :=
  match o with Some z => JInt z | None => JNull end.

(** ** Enumerations *)

Inductive HomeworkType : Type := HOMEWORK | LAB.

Definition HomeworkType_value (t : HomeworkType) : Z :=
  match t with HOMEWORK => 0 | LAB => 1 end.

Inductive HomeworkStatus : Type := CHECKED | UPLOADED | ACTIVE | DELETED | OVERDUE.

Definition HomeworkStatus_value (st : HomeworkStatus) : Z :=
  match st with
  | CHECKED => 1 | UPLOADED => 2 | ACTIVE => 3 | DELETED => 5 | OVERDUE => 6
  end.

(** ** Dataclasses *)

Module LoginData.
Record t : Type := mk { username : string; password : string }.
End LoginData.

Module AuthResponse.
Record t : Type := mk {
  access_token : string;
  refresh_token : string;
  expires_in_access : Z;
  expires_in_refresh : Z;
  user_type : Z;
  city_data : Json }.
End AuthResponse.

Module AuthError.
Record t : Type := mk { field : string; message : string }.
End AuthError.

(** The callable stored in [ClientConfig.on_unauthorized] is known to the
    client only through its identity; calling it is an event of the trace. *)
Definition Handler : Type := nat.

Module ClientConfig.
Record t : Type := mk {
  login_data : LoginData.t;
  language : string;
  cache : option string;
  access_token : option string;
  token_expires_at : option Z;
  group_id : option Z;
  on_unauthorized : option Handler }.

(** [ClientConfig(login_data=...)] with every default of the dataclass. *)
Definition default (ld : LoginData.t) : t :=
  mk ld "en" None None None None None.
End ClientConfig.

(** Python does not enforce the annotations of a dataclass: [initialize]
    stores [config.access_token] and [config.token_expires_at], which are
    [Optional], and the homework accessors store a raw JSON value in
    [group_id].  Each attribute therefore has the type of what the code can
    write into it; that the token and the expiry are never [None] is a
    theorem about the code, not a typing assumption. *)
Module ClientData.
Record t : Type := mk {
  login_data : LoginData.t;
  language : string;
  cache : option string;
  access_token : option string;
  token_expires_at : option Z;
  group_id : Json }.

Definition set_access_token (v : option string) (d : t) : t :=
  mk (login_data d) (language d) (cache d) v (token_expires_at d) (group_id d).

Definition set_token_expires_at (v : option Z) (d : t) : t :=
  mk (login_data d) (language d) (cache d) (access_token d) v (group_id d).

Definition set_group_id (v : Json) (d : t) : t :=
  mk (login_data d) (language d) (cache d) (access_token d) (token_expires_at d) v.
End ClientData.

(** ** Exceptions *)

Inductive ExcArg : Type :=
| ArgStr (s : string)
| ArgJson (j : Json)
| ArgAuthErrors (errs : list AuthError.t).

Inductive Exc : Type :=
| Exception (arg : ExcArg)        (* [raise Exception(arg)] in the source *)
| TypeError (what : string)
| AttributeError (what : string)
| KeyError (key : string)
| JSONDecodeError (doc : string)  (* [response.json()] on a body that is not JSON *)
| RequestException (what : string)
| OSError (filename : string).

(** The four failures the design names, as the source raises them. *)
Definition UninitializedClientError : Exc := Exception (ArgStr "Client not initialized").
Definition UnauthorizedError : Exc := Exception (ArgStr "Access token is expired or invalid").
Definition AuthenticationError (errs : list AuthError.t) : Exc := Exception (ArgAuthErrors errs).
Definition GroupIdError : Exc := Exception (ArgStr "Unable to get user group id").

(** ** HTTP exchanges *)

Inductive Method : Type := GET | POST.

Record FileArg : Type := mkFile {
  file_name : string;               (* [file.name] *)
  file_open : option string }.      (* [file.open("rb")]: the content, or [None] when opening raises *)

Inductive Body : Type :=
| NoBody
| JsonBody (j : Json)
| FormBody (data : list (string * string)) (files : list (string * (string * string))).

Record Request : Type := mkRequest {
  method : Method;
  url : string;
  headers : list (string * string);
  body : Body }.

Record Response : Type := mkResponse {
  status_code : Z;
  text : string;
  json : option Json }.             (* the value of [response.json()], [None] when it raises *)

(** [requests.Response.ok]: [raise_for_status] raises exactly for the
    statuses from 400 to 599. *)
Definition ok (r : Response) : bool :=
  negb ((400 <=? status_code r) && (status_code r <? 600)).

Inductive HttpReply : Type :=
| Responded (r : Response)
| Failed (e : Exc).                 (* the transport raised *)

(** What [auth_user] obtains from the login endpoint, at the types that
    [AuthResponse] and [AuthError] declare. *)
Inductive AuthReply : Type :=
| ReplyObject (user : AuthResponse.t)
| ReplyArray (errs : list AuthError.t)
| ReplyRaises (e : Exc).            (* transport, decoding or constructor failure *)

(** The outside world.  Interactions are numbered; the world answers the
    k-th one as a function of k and of what was sent. *)
Record World : Type := mkWorld {
  now_ms : nat -> Q;                (* [datetime.now().timestamp() * 1000] *)
  login_reply : nat -> Request -> AuthReply;
  http_reply : nat -> Request -> HttpReply }.

Inductive Event : Type :=
| EvClock (now : Q)
| EvLogin (req : Request) (reply : AuthReply)
| EvHttp (req : Request) (reply : HttpReply)
| EvCallback (h : Handler) (path : string).

(** ** The client and the computations over it *)

Record APIClient : Type := mkClient {
  config : ClientConfig.t;
  client_data : option ClientData.t }.

Record State : Type := mkState {
  self : APIClient;
  tick : nat;                       (* number of interactions so far *)
  trace : list Event }.             (* oldest event first *)

Inductive Result (A : Type) : Type :=
| Ok (a : A)
| Raise (e : Exc).
Arguments Ok {A} a.
Arguments Raise {A} e.

(** A method call: it returns or raises, and the attributes it has written
    stay written either way. *)
Definition M (A : Type) : Type := State -> Result A * State.

Definition ret {A} (a : A) : M A := fun s => (Ok a, s).

Definition raise {A} (e : Exc) : M A := fun s => (Raise e, s).

Definition bind {A B} (m : M A) (k : A -> M B) : M B :=
  fun s =>
    match m s with
    | (Ok a, s1) => k a s1
    | (Raise e, s1) => (Raise e, s1)
    end.

Declare Scope py_scope.
Delimit Scope py_scope with py.
Notation "x <- m ;; k" := (bind m (fun x => k))
  (at level 61, m at next level, right associativity) : py_scope.
Notation "m ;; k" := (bind m (fun _ => k))
  (at level 61, right associativity) : py_scope.
Local Open Scope py_scope.

Definition get_config : M ClientConfig.t := fun s => (Ok (config (self s)), s).

Definition get_client_data : M (option ClientData.t) :=
  fun s => (Ok (client_data (self s)), s).

Definition set_client_data (d : option ClientData.t) : M unit :=
  fun s => (Ok tt, mkState (mkClient (config (self s)) d) (tick s) (trace s)).

(** Take the number of the next interaction. *)
Definition next_tick : M nat :=
  fun s => (Ok (tick s), mkState (self s) (S (tick s)) (trace s)).

Definition emit (e : Event) : M unit :=
  fun s => (Ok tt, mkState (self s) (tick s) (trace s ++ [e])).

Definition run_result {A} (p : Result A * State) : Result A := fst p.
Definition run_state {A} (p : Result A * State) : State := snd p.

(** The events a run has added to the trace of the state it started from. *)
Definition new_events (s s' : State) : list Event := skipn (length (trace s)) (trace s').

(** ** The methods of [APIClient] *)

Definition BASE_URL : string := "https://msapi.itstep.org/api/v2".
Definition APP_KEY : string :=
  "6a56a5df2667e65aab73ce76d1dd737f7d1faef9c52e8b8c55ac75f565d8e8a6".

(** [f"Bearer {token}"]: an absent token would print as [None]. *)
Definition bearer (token : option string) : string :=
  String.append "Bearer " (match token with Some t => t | None => "None" end).

Definition login_request (ld : LoginData.t) : Request :=
  mkRequest POST (String.append BASE_URL "/auth/login")
    [("accept", "application/json"); ("Content-Type", "application/json")]
    (JsonBody (JObj [("application_key", JStr APP_KEY);
                     ("id_city", JNull);
                     ("username", JStr (LoginData.username ld));
                     ("password", JStr (LoginData.password ld))])).

Definition get_request (d : ClientData.t) (path : string) : Request :=
  mkRequest GET (String.append BASE_URL (String.append "/" path))
    [("x-language", ClientData.language d);
     ("authorization", bearer (ClientData.access_token d));
     ("accept", "application/json")]
    NoBody.

Definition upload_request (d : ClientData.t) (form_data : list (string * string))
    (files : list (string * (string * string))) : Request :=
  mkRequest POST (String.append BASE_URL "/homework/operations/create")
    [("x-language", ClientData.language d);
     ("authorization", bearer (ClientData.access_token d));
     ("accept", "application/json")]
    (FormBody form_data files).

Definition delete_request (d : ClientData.t) (homework_id : Json) : Request :=
  mkRequest POST (String.append BASE_URL "/homework/operations/delete")
    [("Content-Type", "application/json");
     ("x-language", ClientData.language d);
     ("authorization", bearer (ClientData.access_token d));
     ("accept", "application/json")]
    (JsonBody (JObj [("id", homework_id)])).

(** [APIClient(config)] *)
Definition init (cfg : ClientConfig.t) : State :=
  mkState (mkClient cfg None) 0 [].

Section Client.

(** The provider and the clock. *)
Variable world : World.

(** Python's [str], which the f-strings apply to what they interpolate. *)
Variable py_str : Json -> string.

Definition read_clock : M Q :=
  k <- next_tick ;;
  emit (EvClock (now_ms world k)) ;;
  ret (now_ms world k).

(** [requests.get] and [requests.post] on the authenticated endpoints. *)
Definition send (req : Request) : M Response :=
  k <- next_tick ;;
  emit (EvHttp req (http_reply world k req)) ;;
  match http_reply world k req with
  | Responded r => ret r
  | Failed e => raise e
  end.

Definition response_json (r : Response) : M Json :=
  match json r with
  | Some j => ret j
  | None => raise (JSONDecodeError (text r))
  end.

Definition call_handler (h : Handler) (path : string) : M unit :=
  emit (EvCallback h path).

Definition auth_user (ld : LoginData.t) : M (AuthResponse.t + list AuthError.t) :=
  k <- next_tick ;;
  emit (EvLogin (login_request ld) (login_reply world k (login_request ld))) ;;
  match login_reply world k (login_request ld) with
  | ReplyObject user => ret (inl user)
  | ReplyArray errs => ret (inr errs)
  | ReplyRaises e => raise e
  end.

Definition initialize : M unit :=
  cfg <- get_config ;;
  if truthy_str (ClientConfig.access_token cfg)
     && truthy_int (ClientConfig.token_expires_at cfg)
  then
    set_client_data (Some (ClientData.mk
      (ClientConfig.login_data cfg)
      (ClientConfig.language cfg)
      (ClientConfig.cache cfg)
      (ClientConfig.access_token cfg)
      (ClientConfig.token_expires_at cfg)
      (of_optional_int (ClientConfig.group_id cfg))))
  else
    user <- auth_user (ClientConfig.login_data cfg) ;;
    match user with
    | inr errs => raise (Exception (ArgAuthErrors errs))
    | inl user =>
        set_client_data (Some (ClientData.mk
          (ClientConfig.login_data cfg)
          (if String.eqb (ClientConfig.language cfg) "" then "en"
           else ClientConfig.language cfg)
          (ClientConfig.cache cfg)
          (Some (AuthResponse.access_token user))
          (Some (AuthResponse.expires_in_access user * 1000))
          (of_optional_int (ClientConfig.group_id cfg))))
    end.

Definition is_token_expired : M bool :=
  cd <- get_client_data ;;
  match cd with
  | None => ret true
  | Some d =>
      now <- read_clock ;;
      match ClientData.token_expires_at d with
      | Some expires => ret (Qle_bool (inject_Z expires) now)
      | None => raise (TypeError "'>=' not supported between 'float' and 'NoneType'")
      end
  end.

Definition update_token : M unit :=
  cfg <- get_config ;;
  user <- auth_user (ClientConfig.login_data cfg) ;;
  match user with
  | inr errs => raise (Exception (ArgAuthErrors errs))
  | inl user =>
      cd <- get_client_data ;;
      match cd with
      | Some d =>
          set_client_data (Some
            (ClientData.set_token_expires_at
               (Some (AuthResponse.expires_in_access user * 1000))
               (ClientData.set_access_token
                  (Some (AuthResponse.access_token user)) d)))
      | None => ret tt
      end
  end.

(** The guard and the optimistic refresh that open [get],
    [upload_homework] and [delete_homework]. *)
Definition ensure_session : M unit :=
  cd <- get_client_data ;;
  match cd with
  | None => raise UninitializedClientError
  | Some _ =>
      expired <- is_token_expired ;;
      if expired : bool then update_token else ret tt
  end.

(** [self.client_data.<attr>] *)
Definition the_client_data : M ClientData.t :=
  cd <- get_client_data ;;
  match cd with
  | Some d => ret d
  | None => raise (AttributeError "'NoneType' object has no attribute")
  end.

(** The body of [get], with its recursive call as a parameter. *)
Definition get_with (recur : string -> bool -> M Json)
    (path : string) (retry : bool) : M Json :=
  ensure_session ;;
  d <- the_client_data ;;
  response <- send (get_request d path) ;;
  if status_code response =? 401 then
    cfg <- get_config ;;
    match ClientConfig.on_unauthorized cfg with
    | Some h => call_handler h path ;; ret JNull
    | None =>
        if retry then update_token ;; recur path false
        else raise UnauthorizedError
    end
  else response_json response.

(** [get] calls itself only with [retry=False], and that call does not
    recurse: two unfoldings of the body tie the knot ([get_eq] below). *)
Definition get (path : string) (retry : bool) : M Json :=
  get_with (get_with (fun _ _ => raise UnauthorizedError)) path retry.

Definition get_user_info : M Json := get "settings/user-info" true.

Definition get_user_settings : M Json := get "profile/operations/settings" true.

Definition lift {A} (r : Result A) : M A := fun s => (r, s).

(** The read accessors ([get_month_schedule], [get_reviews], [get_visits],
    [get_latest_news], [get_all_exams], ...): one [get], then a mapping of
    the payload into records that touches neither the client nor the
    provider. *)
Definition read_accessor {A} (decode : Json -> Result A) (path : string) : M A :=
  response <- get path true ;;
  lift (decode response).

(** [user_info["current_group_id"]] *)
Definition subscript (j : Json) (key : string) : M Json :=
  match j with
  | JObj members =>
      match assoc key members with
      | Some v => ret v
      | None => raise (KeyError key)
      end
  | _ => raise (TypeError "object is not subscriptable by str")
  end.

Definition resolve_group_id : M unit :=
  cd <- get_client_data ;;
  if match cd with
     | None => true
     | Some d => negb (truthy (ClientData.group_id d))
     end
  then
    user_info <- get_user_info ;;
    if negb (truthy user_info) then raise GroupIdError
    else
      v <- subscript user_info "current_group_id" ;;
      d <- the_client_data ;;
      set_client_data (Some (ClientData.set_group_id v d))
  else ret tt.

Definition get_homework_by_type (page : Z) (homework_type : HomeworkType) : M Json :=
  resolve_group_id ;;
  d <- the_client_data ;;
  get (String.append "homework/operations/list?page="
        (String.append (py_str (JInt page))
        (String.append "&type="
        (String.append (py_str (JInt (HomeworkType_value homework_type)))
        (String.append "&group_id=" (py_str (ClientData.group_id d)))))))
      true.

Definition get_homework_list (page : Z) (status : HomeworkStatus)
    (homework_type : HomeworkType) : M Json :=
  resolve_group_id ;;
  d <- the_client_data ;;
  get (String.append "homework/operations/list?page="
        (String.append (py_str (JInt page))
        (String.append "&status="
        (String.append (py_str (JInt (HomeworkStatus_value status)))
        (String.append "&type="
        (String.append (py_str (JInt (HomeworkType_value homework_type)))
        (String.append "&group_id=" (py_str (ClientData.group_id d)))))))))
      true.

Definition open_file (file : option FileArg) : M (list (string * (string * string))) :=
  match file with
  | None => ret []
  | Some f =>
      match file_open f with
      | Some content => ret [("file", (file_name f, content))]
      | None => raise (OSError (file_name f))
      end
  end.

Definition upload_homework (homework_id : Z) (answer_text : option string)
    (file : option FileArg) (spent_time_hour spent_time_min : Z) : M Json :=
  ensure_session ;;
  let form_data :=
    [("id", py_str (JInt homework_id));
     ("spentTimeHour", py_str (JInt spent_time_hour));
     ("spentTimeMin", py_str (JInt spent_time_min))]
    ++ (if truthy_str answer_text
        then [("answerText", match answer_text with Some a => a | None => "" end)]
        else []) in
  files <- open_file file ;;
  d <- the_client_data ;;
  response <- send (upload_request d form_data files) ;;
  if negb (ok response) then
    payload <- response_json response ;;
    raise (Exception (ArgJson payload))
  else response_json response.

Definition id_value (homework_id : Z + string) : Json :=
  match homework_id with inl z => JInt z | inr s => JStr s end.

Definition delete_homework (homework_id : Z + string) : M bool :=
  ensure_session ;;
  d <- the_client_data ;;
  response <- send (delete_request d (id_value homework_id)) ;;
  if negb (ok response) then raise (Exception (ArgStr (text response)))
  else ret (negb (String.eqb (text response) "null")).

(** [create_client(config)] *)
Definition create_client (cfg : ClientConfig.t) : Result unit * State :=
  initialize (init cfg).

End Client.

Arguments login_request : simpl never.
Arguments get_request : simpl never.
Arguments upload_request : simpl never.
Arguments delete_request : simpl never.

(** ** Reading traces *)

Definition is_login (e : Event) : bool :=
  match e with EvLogin _ _ => true | _ => false end.

Definition is_http (e : Event) : bool :=
  match e with EvHttp _ _ => true | _ => false end.

Definition is_callback (e : Event) : bool :=
  match e with EvCallback _ _ => true | _ => false end.

(** Number of refreshes, of requests sent to an authenticated endpoint and
    of handler calls in a stretch of trace. *)
Definition refreshes (evs : list Event) : nat := length (filter is_login evs).
Definition requests_sent (evs : list Event) : nat := length (filter is_http evs).
Definition callbacks (evs : list Event) : nat := length (filter is_callback evs).

(** What happened before the first request to an authenticated endpoint (all
    of it when no such request was sent). *)
Fixpoint before_send (evs : list Event) : list Event :=
  match evs with
  | [] => []
  | EvHttp _ _ :: _ => []
  | e :: rest => e :: before_send rest
  end.

(** What happened after it. *)
Fixpoint after_send (evs : list Event) : list Event :=
  match evs with
  | [] => []
  | EvHttp _ _ :: rest => rest
  | _ :: rest => after_send rest
  end.

(** The first request to an authenticated endpoint, and what came back. *)
Fixpoint first_request (evs : list Event) : option Request :=
  match evs with
  | [] => None
  | EvHttp req _ :: _ => Some req
  | _ :: rest => first_request rest
  end.

Fixpoint first_reply (evs : list Event) : option HttpReply :=
  match evs with
  | [] => None
  | EvHttp _ reply :: _ => Some reply
  | _ :: rest => first_reply rest
  end.

(** [is_token_expired] reads the clock, and a refresh it causes is the next
    event; a forced refresh, the one [get] makes on a 401, is a login that
    no clock read announces. *)
Fixpoint forced_refreshes (evs : list Event) : nat :=
  match evs with
  | [] => 0%nat
  | EvClock _ :: EvLogin _ _ :: rest => forced_refreshes rest
  | EvLogin _ _ :: rest => S (forced_refreshes rest)
  | _ :: rest => forced_refreshes rest
  end.

(** No login of the stretch was rejected or failed. *)
Definition login_accepted (e : Event) : bool :=
  match e with
  | EvLogin _ (ReplyObject _) => true
  | EvLogin _ _ => false
  | _ => true
  end.

Definition logins_accepted (evs : list Event) : bool := forallb login_accepted evs.

(** What the first login of the stretch that was rejected or that failed
    makes its caller raise. *)
Fixpoint login_failure (evs : list Event) : option Exc :=
  match evs with
  | [] => None
  | EvLogin _ (ReplyArray errs) :: _ => Some (AuthenticationError errs)
  | EvLogin _ (ReplyRaises e) :: _ => Some e
  | _ :: rest => login_failure rest
  end.

Definition get_url (path : string) : string :=
  String.append BASE_URL (String.append "/" path).

(** ** The session invariant *)

Definition populated (d : ClientData.t) : bool :=
  match ClientData.access_token d, ClientData.token_expires_at d with
  | Some _, Some _ => true
  | _, _ => false
  end.

(** Absent, or with both the token and the expiry set. *)
Definition session_ok (c : APIClient) : bool :=
  match client_data c with
  | None => true
  | Some d => populated d
  end.

Definition initialized (c : APIClient) : bool :=
  match client_data c with
  | None => false
  | Some d => populated d
  end.

(** The comparison of [is_token_expired] on a stored expiry. *)
Definition expired_at (now : Q) (c : APIClient) : bool :=
  match client_data c with
  | None => true
  | Some d =>
      match ClientData.token_expires_at d with
      | Some expires => Qle_bool (inject_Z expires) now
      | None => false
      end
  end.

(** What a successful refresh writes into the session. *)
Definition refreshed (user : AuthResponse.t) (d : ClientData.t) : ClientData.t :=
  ClientData.set_token_expires_at (Some (AuthResponse.expires_in_access user * 1000))
    (ClientData.set_access_token (Some (AuthResponse.access_token user)) d).

(** The claim that a login stores "now + lifetime", in the words of the
    design: [k] numbers the interaction at which the clock is read. *)
Definition expiry_is_now_plus_lifetime (world : World) (k : nat)
    (user : AuthResponse.t) (s : State) : Prop :=
  exists d expires,
    client_data (self s) = Some d /\
    ClientData.token_expires_at d = Some expires /\
    (inject_Z expires ==
     now_ms world k + inject_Z (AuthResponse.expires_in_access user * 1000))%Q.

(** ** Runs *)

Definition after_event (e : Event) (s : State) : State :=
  mkState (self s) (S (tick s)) (trace s ++ [e]).

Definition with_session (f : ClientData.t -> ClientData.t) (s : State) : State :=
  mkState (mkClient (config (self s)) (option_map f (client_data (self s))))
          (tick s) (trace s).

(** The login the client would perform from a state, and its outcome. *)
Definition login_at (world : World) (s : State) : AuthReply :=
  login_reply world (tick s) (login_request (ClientConfig.login_data (config (self s)))).

Definition login_event (world : World) (s : State) : Event :=
  EvLogin (login_request (ClientConfig.login_data (config (self s)))) (login_at world s).

(** The configuration brings a token and an expiry, and [initialize]
    adopts them instead of logging in. *)
Definition token_given (cfg : ClientConfig.t) : bool :=
  truthy_str (ClientConfig.access_token cfg)
  && truthy_int (ClientConfig.token_expires_at cfg).

(** What [ensure_session] does on a populated session: it reads the clock
    and, when the token has expired, logs in again. *)
Definition session_events (world : World) (s : State) : list Event :=
  EvClock (now_ms world (tick s)) ::
  (if expired_at (now_ms world (tick s)) (self s)
   then [login_event world (after_event (EvClock (now_ms world (tick s))) s)]
   else []).

(** A computation that keeps the session invariant. *)
Definition keeps {A} (m : M A) : Prop :=
  forall s, session_ok (self s) = true -> session_ok (self (snd (m s))) = true.

(** A computation that only adds to the trace. *)
Definition extends {A} (m : M A) : Prop :=
  forall s, exists evs, trace (snd (m s)) = trace s ++ evs.

(** A stretch of trace that is empty or opens with a request. *)
Definition opens_with_request (evs : list Event) : Prop :=
  evs = [] \/ exists req reply rest, evs = EvHttp req reply :: rest.

(** A run that opens with the session check and whose next event, if it
    has one, is a request; [must_send] says that only a failed refresh can
    keep it from sending. *)
Definition opening {A} (world : World) (must_send : bool) (m : M A) (s : State) : Prop :=
  exists tail,
    new_events s (snd (m s)) = session_events world s ++ tail /\
    opens_with_request tail /\
    (must_send = true -> logins_accepted (session_events world s) = true -> tail <> []) /\
    (tail = [] -> forall a, fst (m s) <> Ok a).

(** The events of one [get]. *)
Definition get_events (world : World) (path : string) (retry : bool) (s : State)
    : list Event :=
  new_events s (run_state (get world path retry s)).

(** ** Calls and operations of a client *)

(** The authenticated calls a caller can make. *)
Inductive Call : Type :=
| CGet (path : string) (retry : bool)
| CUserInfo
| CUserSettings
| CRead (path : string) (decode : Json -> Result Json)
| CHomeworkByType (page : Z) (homework_type : HomeworkType)
| CHomeworkList (page : Z) (status : HomeworkStatus) (homework_type : HomeworkType)
| CUpload (homework_id : Z) (answer_text : option string) (file : option FileArg)
    (spent_time_hour spent_time_min : Z)
| CDelete (homework_id : Z + string).

(** Everything that can be invoked on a client. *)
Inductive Op : Type :=
| OpInitialize
| OpIsTokenExpired
| OpUpdateToken
| OpCall (c : Call).

Section Calls.

Variable world : World.
Variable py_str : Json -> string.

Definition run_call (c : Call) : M Json :=
  match c with
  | CGet path retry => get world path retry
  | CUserInfo => get_user_info world
  | CUserSettings => get_user_settings world
  | CRead path decode => read_accessor world decode path
  | CHomeworkByType page ty => get_homework_by_type world py_str page ty
  | CHomeworkList page st ty => get_homework_list world py_str page st ty
  | CUpload hid answer file h m => upload_homework world py_str hid answer file h m
  | CDelete hid => b <- delete_homework world hid ;; ret (JBool b)
  end.

Definition run_op (o : Op) : M unit :=
  match o with
  | OpInitialize => initialize world
  | OpIsTokenExpired => is_token_expired world ;; ret tt
  | OpUpdateToken => update_token world
  | OpCall c => run_call c ;; ret tt
  end.

(** Calls made one after the other; a call that raises does not stop the
    caller from making the next one. *)
Fixpoint run_calls (cs : list Call) (s : State) : list (Result Json) * State :=
  match cs with
  | [] => ([], s)
  | c :: rest =>
      let p := run_call c s in
      let q := run_calls rest (snd p) in
      (fst p :: fst q, snd q)
  end.

(** An upload whose attachment cannot be opened raises before it sends. *)
Definition opens (c : Call) : bool :=
  match c with
  | CUpload _ _ (Some f) _ _ =>
      match file_open f with Some _ => true | None => false end
  | _ => true
  end.

Definition events_of (c : Call) (s : State) : list Event :=
  new_events s (run_state (run_call c s)).

(** The states a client goes through, from its construction on. *)
Inductive reachable : State -> Prop :=
| reach_init (cfg : ClientConfig.t) : reachable (init cfg)
| reach_op (o : Op) (s : State) :
    reachable s -> reachable (run_state (run_op o s)).

End Calls.

(** ** Response records

    The accessors build each record by calling its class with the entry
    unpacked into keywords: the generated constructor takes one keyword per
    declared field, none of which has a
    default, and checks no type.  An instance is its class and its
    attributes, in the order of the declaration. *)

Inductive Dataclass : Type :=
| ScheduleEntry | Review | LessonVisit | AttendanceEntry | NewsEntry
| NewsDetails | Exam | StudentInfo | ActivityEntry.

Definition fields_of (c : Dataclass) : list string :=
  match c with
  | ScheduleEntry =>
      ["date"; "started_at"; "finished_at"; "room_name"; "subject_name";
       "teacher_name"; "lesson"]
  | Review => ["date"; "full_spec"; "message"; "spec"; "teacher"]
  | LessonVisit =>
      ["spec_id"; "lesson_number"; "status_was"; "class_work_mark";
       "control_work_mark"; "home_work_mark"; "lab_work_mark"; "date_visit";
       "spec_name"; "lesson_theme"; "teacher_name"]
  | AttendanceEntry => ["date"; "has_rasp"; "points"; "previous_points"]
  | NewsEntry => ["id_bbs"; "theme"; "time"]
  | NewsDetails => ["id_bbs"; "is_viewed"; "text_bbs"; "theme"; "time"]
  | Exam =>
      ["exam_id"; "id_file"; "mark"; "mark_type"; "need_access"; "date"; "spec";
       "teacher"; "comment_delete_file"; "comment_teach"; "ex_file_name";
       "file_path"; "need_access_stud"]
  | StudentInfo => ["id"; "position"; "amount"; "full_name"; "photo_path"]
  | ActivityEntry =>
      ["achievements_id"; "achievements_type"; "action"; "badge"; "current_point";
       "point_types_id"; "subject_mark"; "date"; "achievements_name";
       "point_types_name"; "subject_name"; "old_competition"]
  end.

Record Instance : Type := mkInstance {
  class_of : Dataclass;
  attributes : list (string * Json) }.

(** [instance.<name>] *)
Definition getattr (i : Instance) (name : string) : option Json :=
  assoc name (attributes i).

Definition has_key (key : string) (members : list (string * Json)) : bool :=
  match assoc key members with Some _ => true | None => false end.

(** The keywords are accepted when none is unexpected and none is missing. *)
Definition accepts (c : Dataclass) (members : list (string * Json)) : bool :=
  forallb (fun kv => existsb (String.eqb (fst kv)) (fields_of c)) members
  && forallb (fun f => has_key f members) (fields_of c).

Definition value_of (key : string) (members : list (string * Json)) : Json :=
  match assoc key members with Some v => v | None => JNull end.

(** The class called with the entry unpacked into keywords. *)
Definition construct (c : Dataclass) (entry : Json) : Result Instance :=
  match entry with
  | JObj members =>
      if accepts c members
      then Ok (mkInstance c (map (fun f => (f, value_of f members)) (fields_of c)))
      else Raise (TypeError "__init__() got an unexpected or a missing argument")
  | _ => Raise (TypeError "argument after ** must be a mapping")
  end.

(** [for entry in response]: a list yields its items, a dict its keys, a
    string its characters; nothing else can be iterated. *)
Definition iterate (response : Json) : Result (list Json) :=
  match response with
  | JArr items => Ok items
  | JObj members => Ok (map (fun kv => JStr (fst kv)) members)
  | JStr s => Ok (map (fun ch => JStr (String ch "")) (list_ascii_of_string s))
  | _ => Raise (TypeError "object is not iterable")
  end.

(** The comprehension stops at the first item the constructor refuses. *)
Fixpoint construct_all (c : Dataclass) (items : list Json) : Result (list Instance) :=
  match items with
  | [] => Ok []
  | item :: rest =>
      match construct c item with
      | Raise e => Raise e
      | Ok i =>
          match construct_all c rest with
          | Raise e => Raise e
          | Ok more => Ok (i :: more)
          end
      end
  end.

(** The list comprehension of the accessors over [response]. *)
Definition decode_list (c : Dataclass) (response : Json) : Result (list Instance) :=
  match iterate response with
  | Raise e => Raise e
  | Ok items => construct_all c items
  end.

Arguments construct : simpl never.
Arguments decode_list : simpl never.

(** ** Dates

    [date.strftime("%Y-%m-%d")] writes the year, the month and the day in
    decimal, the month and the day on two digits.  The year is written on
    four digits; for the years before 1000 some platforms drop the leading
    zeros, and the statements below leave those years out. *)

Record date : Type := mkDate { year : Z; month : Z; day : Z }.

Definition digit (n : Z) : Ascii.ascii := Ascii.ascii_of_nat (48 + Z.to_nat (n mod 10)).

Definition two_digits (n : Z) : string :=
  String (digit (n / 10)) (String (digit n) "").

Definition four_digits (n : Z) : string :=
  String (digit (n / 1000)) (String (digit (n / 100))
    (String (digit (n / 10)) (String (digit n) ""))).

Definition format_date (date_obj : date) : string :=
  String.append (four_digits (year date_obj))
    (String.append "-"
      (String.append (two_digits (month date_obj))
        (String.append "-" (two_digits (day date_obj))))).

Arguments format_date : simpl never.

(** The dates the statements are about. *)
Definition plain_date (d : date) : Prop :=
  1000 <= year d <= 9999 /\ 1 <= month d <= 12 /\ 1 <= day d <= 31.

(** ** Frames *)

(** Two sessions that differ at most in the access token and its expiry. *)
Definition same_profile (d d' : ClientData.t) : Prop :=
  ClientData.login_data d' = ClientData.login_data d /\
  ClientData.language d' = ClientData.language d /\
  ClientData.cache d' = ClientData.cache d /\
  ClientData.group_id d' = ClientData.group_id d.

(** Two sessions that differ at most in the token, its expiry and the
    group id. *)
Definition same_identity (d d' : ClientData.t) : Prop :=
  ClientData.login_data d' = ClientData.login_data d /\
  ClientData.language d' = ClientData.language d /\
  ClientData.cache d' = ClientData.cache d.

(** A computation that leaves the configuration alone, neither creates nor
    drops the session, and changes the session only within [R]. *)
Definition frames {A} (R : ClientData.t -> ClientData.t -> Prop) (m : M A) : Prop :=
  forall s,
    config (self (snd (m s))) = config (self s) /\
    match client_data (self s), client_data (self (snd (m s))) with
    | None, None => True
    | Some d, Some d' => R d d'
    | _, _ => False
    end.

(** A computation that adds to the trace at most [n] requests and [l]
    logins. *)
Definition bounded {A} (n l : nat) (m : M A) : Prop :=
  forall s, exists evs,
    trace (snd (m s)) = trace s ++ evs /\
    (requests_sent evs <= n)%nat /\ (refreshes evs <= l)%nat.

(** ** The read accessors *)

Section Accessors.

Variable world : World.
Variable py_str : Json -> string.

(** [date.fromtimestamp], in the time zone of the process, of a reading of
    the clock in milliseconds. *)
Variable date_of_ms : Q -> date.

(** [date.today()] *)
Definition today : M date :=
  now <- read_clock world ;;
  ret (date_of_ms now).

(** [if not date_obj: date_obj = date.today()]; a date is never falsy. *)
Definition date_or_today (date_obj : option date) : M date :=
  match date_obj with
  | Some d => ret d
  | None => today
  end.

Definition get_month_schedule (date_obj : option date) : M (list Instance) :=
  d <- date_or_today date_obj ;;
  response <- get world
    (String.append "schedule/operations/get-month?date_filter=" (format_date d)) true ;;
  lift (decode_list ScheduleEntry response).

Definition get_schedule_by_date (date_obj : option date) : M (list Instance) :=
  d <- date_or_today date_obj ;;
  response <- get world
    (String.append "schedule/operations/get-by-date?date_filter=" (format_date d)) true ;;
  lift (decode_list ScheduleEntry response).

Definition get_reviews : M (list Instance) :=
  read_accessor world (decode_list Review) "reviews/index/list".

Definition get_visits : M (list Instance) :=
  read_accessor world (decode_list LessonVisit) "progress/operations/student-visits".

Definition get_attendance : M (list Instance) :=
  read_accessor world (decode_list AttendanceEntry) "dashboard/chart/attendance".

Definition get_latest_news : M (list Instance) :=
  read_accessor world (decode_list NewsEntry) "news/operations/latest-news".

Definition get_news_details (news_id : Z) : M Instance :=
  read_accessor world (construct NewsDetails)
    (String.append "news/operations/detail-news?news_id=" (py_str (JInt news_id))).

Definition get_all_exams : M (list Instance) :=
  read_accessor world (decode_list Exam) "progress/operations/student-exams".

Definition get_future_exams : M (list Instance) :=
  read_accessor world (decode_list Exam) "dashboard/info/future-exams".

Definition get_stream_leaders : M (list Instance) :=
  read_accessor world (decode_list StudentInfo) "dashboard/progress/leader-stream".

Definition get_group_leaders : M (list Instance) :=
  read_accessor world (decode_list StudentInfo) "dashboard/progress/leader-group".

Definition get_activity : M (list Instance) :=
  read_accessor world (decode_list ActivityEntry) "dashboard/progress/activity".

Definition get_activity_log : M Json := get world "dashboard/progress/activity-web" true.

Definition get_group_info : M Json := get world "homework/settings/group-history" true.

Definition get_homework_count : M Json := get world "count/homework" true.

(** The accessors that map an array of the provider into records. *)
Inductive ListAccessor : Type :=
| AReviews | AVisits | AAttendance | ALatestNews | AAllExams | AFutureExams
| AStreamLeaders | AGroupLeaders | AActivity
| AMonthSchedule (date_obj : option date)
| AScheduleByDate (date_obj : option date).

Definition run_list (a : ListAccessor) : M (list Instance) :=
  match a with
  | AReviews => get_reviews
  | AVisits => get_visits
  | AAttendance => get_attendance
  | ALatestNews => get_latest_news
  | AAllExams => get_all_exams
  | AFutureExams => get_future_exams
  | AStreamLeaders => get_stream_leaders
  | AGroupLeaders => get_group_leaders
  | AActivity => get_activity
  | AMonthSchedule d => get_month_schedule d
  | AScheduleByDate d => get_schedule_by_date d
  end.

Definition record_class (a : ListAccessor) : Dataclass :=
  match a with
  | AReviews => Review
  | AVisits => LessonVisit
  | AAttendance => AttendanceEntry
  | ALatestNews => NewsEntry
  | AAllExams | AFutureExams => Exam
  | AStreamLeaders | AGroupLeaders => StudentInfo
  | AActivity => ActivityEntry
  | AMonthSchedule _ | AScheduleByDate _ => ScheduleEntry
  end.

End Accessors.

(** ** More readers of requests and traces *)

(** [headers[name]] of a request. *)
Fixpoint lookup_header (name : string) (hs : list (string * string)) : option string :=
  match hs with
  | [] => None
  | (k, v) :: rest => if String.eqb k name then Some v else lookup_header name rest
  end.

Definition header (name : string) (req : Request) : option string :=
  lookup_header name (headers req).

(** The last response of a stretch of trace, and the last login the
    provider accepted in it. *)
Definition last_reply (evs : list Event) : option HttpReply := first_reply (rev evs).

Fixpoint first_accepted (evs : list Event) : option AuthResponse.t :=
  match evs with
  | [] => None
  | EvLogin _ (ReplyObject user) :: _ => Some user
  | _ :: rest => first_accepted rest
  end.

Definition last_login (evs : list Event) : option AuthResponse.t := first_accepted (rev evs).

(** The token a session holds. *)
Definition token_of (c : APIClient) : option string :=
  match client_data c with
  | Some d => ClientData.access_token d
  | None => None
  end.

Definition group_id_of (c : APIClient) : Json :=
  match client_data c with
  | Some d => ClientData.group_id d
  | None => JNull
  end.

(** The expiry a session holds. *)
Definition expiry_of (c : APIClient) : option Z :=
  match client_data c with
  | Some d => ClientData.token_expires_at d
  | None => None
  end.

(** The token and the expiry of a session after a stretch of trace, when
    what the provider's logins hand out is written into it: those of the
    last login the provider accepted, and failing one those the session
    held before. *)
Definition token_after (evs : list Event) (c : APIClient) : option string :=
  match last_login evs with
  | Some user => Some (AuthResponse.access_token user)
  | None => token_of c
  end.

Definition expiry_after (evs : list Event) (c : APIClient) : option Z :=
  match last_login evs with
  | Some user => Some (AuthResponse.expires_in_access user * 1000)
  | None => expiry_of c
  end.

Arguments token_after : simpl never.
Arguments expiry_after : simpl never.

(** A run whose first request bears the token the session holds once what
    comes before the request is over: after an expiry, the token of the
    refresh. *)
Definition bears_current_token {A} (world : World) (m : M A) (s : State) : Prop :=
  forall req,
    first_request (new_events s (snd (m s))) = Some req ->
    header "authorization" req
      = Some (bearer (token_after (before_send (new_events s (snd (m s)))) (self s))) /\
    (expired_at (now_ms world (tick s)) (self s) = true ->
     last_login (before_send (new_events s (snd (m s)))) <> None).

(** A computation that keeps the session it finds and writes into it the
    token and the expiry of every login the provider accepts. *)
Definition tracks {A} (m : M A) : Prop :=
  forall s,
    client_data (self s) <> None ->
    exists evs,
      trace (snd (m s)) = trace s ++ evs /\
      client_data (self (snd (m s))) <> None /\
      token_of (self (snd (m s))) = token_after evs (self s) /\
      expiry_of (self (snd (m s))) = expiry_after evs (self s).

(** The two accessors that resolve the group id. *)
Definition is_homework_call (c : Call) : bool :=
  match c with
  | CHomeworkByType _ _ | CHomeworkList _ _ _ => true
  | _ => false
  end.

(** An entry the constructor of [c] accepts. *)
Definition well_formed (c : Dataclass) (entry : Json) : Prop :=
  exists members, entry = JObj members /\ accepts c members = true.

(** The paths of the two homework lists, for a group id. *)
Definition by_type_path (py_str : Json -> string) (page : Z)
    (homework_type : HomeworkType) (group_id : Json) : string :=
  String.append "homework/operations/list?page="
    (String.append (py_str (JInt page))
    (String.append "&type="
    (String.append (py_str (JInt (HomeworkType_value homework_type)))
    (String.append "&group_id=" (py_str group_id))))).

Definition by_status_path (py_str : Json -> string) (page : Z) (status : HomeworkStatus)
    (homework_type : HomeworkType) (group_id : Json) : string :=
  String.append "homework/operations/list?page="
    (String.append (py_str (JInt page))
    (String.append "&status="
    (String.append (py_str (JInt (HomeworkStatus_value status)))
    (String.append "&type="
    (String.append (py_str (JInt (HomeworkType_value homework_type)))
    (String.append "&group_id=" (py_str group_id))))))).

(** The state in which [resolve_group_id] has stored [v]. *)
Definition with_group_id (v : Json) (s : State) : State :=
  with_session (ClientData.set_group_id v) s.

(** ** Scenarios *)

Module Scenario.

Definition credentials : LoginData.t := LoginData.mk "student" "secret".

Definition cfg : ClientConfig.t := ClientConfig.default credentials.

Definition cfg_with_handler : ClientConfig.t :=
  ClientConfig.mk credentials "en" None None None None (Some 7%nat).

Definition user : AuthResponse.t :=
  AuthResponse.mk "token-1" "refresh-1" 3600 86400 1 JNull.

Definition str (j : Json) : string :=
  match j with JStr s => s | _ => "0" end.

(** The provider accepts the login, the clock stands at an instant of
    November 2023, and every authenticated request is answered 401. *)
Definition always_401 : World :=
  mkWorld (fun _ => 1700000000000 # 1)
          (fun _ _ => ReplyObject user)
          (fun _ _ => Responded (mkResponse 401 "null" (Some JNull))).

(** Same provider, but the clock stands before the expiry it hands out. *)
Definition early_401 : World :=
  mkWorld (fun _ => 5 # 2)
          (fun _ _ => ReplyObject user)
          (fun _ _ => Responded (mkResponse 401 "null" (Some JNull))).

(** Deleting answers 200 with the body [null]. *)
Definition deletes_null : World :=
  mkWorld (fun _ => 5 # 2)
          (fun _ _ => ReplyObject user)
          (fun _ _ => Responded (mkResponse 200 "null" (Some JNull))).

(** The provider rejects the credentials. *)
Definition rejects : World :=
  mkWorld (fun _ => 5 # 2)
          (fun _ _ => ReplyArray [AuthError.mk "password" "wrong"])
          (fun _ _ => Responded (mkResponse 200 "{}" (Some (JObj [])))).

(** The provider accepts the first login and rejects every later one,
    and answers 401 meanwhile. *)
Definition refresh_rejected : World :=
  mkWorld (fun _ => 5 # 2)
          (fun k _ => match k with
                      | O => ReplyObject user
                      | S _ => ReplyArray [AuthError.mk "password" "changed"]
                      end)
          (fun _ _ => Responded (mkResponse 401 "null" (Some JNull))).

(** What the provider hands out at a later login. *)
Definition renewed : AuthResponse.t :=
  AuthResponse.mk "token-2" "refresh-2" 1700003600 86400 1 JNull.

(** The provider hands out [user] at the first login and [renewed] at the
    later ones; the clock stands before both expiries and every
    authenticated request is answered 401. *)
Definition renews_401 : World :=
  mkWorld (fun _ => 5 # 2)
          (fun k _ => match k with
                      | O => ReplyObject user
                      | S _ => ReplyObject renewed
                      end)
          (fun _ _ => Responded (mkResponse 401 "null" (Some JNull))).

(** Same logins; the clock stands between the two expiries and every
    authenticated request is answered 200 with the body [null]. *)
Definition renews : World :=
  mkWorld (fun _ => 1700000000000 # 1)
          (fun k _ => match k with
                      | O => ReplyObject user
                      | S _ => ReplyObject renewed
                      end)
          (fun _ _ => Responded (mkResponse 200 "null" (Some JNull))).

(** A client that has logged in against each of these providers. *)
Definition logged_in (w : World) (c : ClientConfig.t) : State :=
  run_state (initialize w (init c)).

End Scenario.

(** ** More scenarios *)

Module Cases.

Definition user : AuthResponse.t :=
  AuthResponse.mk "token-2" "refresh-2" 1700003600 86400 1 JNull.

(** A provider that accepts every login with [user] and answers with
    [reply], and a clock that stands at 1700000000000 ms. *)
Definition provider (reply : nat -> Request -> HttpReply) : World :=
  mkWorld (fun _ => 1700000000000 # 1) (fun _ _ => ReplyObject user) reply.

(** Every request is answered with the same status, text and payload. *)
Definition serves (status : Z) (body : string) (payload : option Json) : World :=
  provider (fun _ _ => Responded (mkResponse status body payload)).

(** No request gets through. *)
Definition unreachable : World :=
  provider (fun _ _ => Failed (RequestException "connection refused")).

(** The requests up to the second interaction are answered 401, the later
    ones 200 with an empty array. *)
Definition recovers : World :=
  provider (fun k _ =>
    if Nat.leb k 2
    then Responded (mkResponse 401 "null" (Some JNull))
    else Responded (mkResponse 200 "[]" (Some (JArr [])))).

Definition review : Json :=
  JObj [("date", JStr "2024-03-09"); ("full_spec", JStr "Algorithms");
        ("message", JStr "good"); ("spec", JStr "ALG"); ("teacher", JStr "T.")].

Definition profile : Json :=
  JObj [("current_group_id", JInt 42); ("full_name", JStr "student")].

(** The profile under its path, an array of one review everywhere else. *)
Definition school : World :=
  provider (fun _ req =>
    if String.eqb (url req) (get_url "settings/user-info")
    then Responded (mkResponse 200 "{}" (Some profile))
    else Responded (mkResponse 200 "[]" (Some (JArr [review])))).

(** The first login is accepted with an expiry long past, the later ones
    are rejected. *)
Definition lapsed : World :=
  mkWorld (fun _ => 1700000000000 # 1)
          (fun k _ => match k with
                      | O => ReplyObject Scenario.user
                      | S _ => ReplyArray [AuthError.mk "password" "changed"]
                      end)
          (fun _ _ => Responded (mkResponse 200 "[]" (Some (JArr [])))).

(** A configuration that brings its token, and one with a handler. *)
Definition cfg_with_token : ClientConfig.t :=
  ClientConfig.mk Scenario.credentials "" None (Some "given") (Some 1800000000000)
    (Some 7) None.

Definition cfg_with_handler : ClientConfig.t :=
  ClientConfig.mk Scenario.credentials "en" None None None None (Some 3%nat).

Definition day : date := mkDate 2024 3 9.

Definition day_of (now : Q) : date := day.

Definition unreadable : FileArg := mkFile "answer.zip" None.

Definition logged_in (w : World) (c : ClientConfig.t) : State :=
  run_state (initialize w (init c)).

End Cases.

(** * Properties *)

Arguments Qle_bool : simpl never.

Lemma skipn_length_app {A} (l r : list A) : skipn (length l) (l ++ r) = r.
Proof. rewrite skipn_app, skipn_all, Nat.sub_diag. reflexivity. Qed.

Lemma new_events_app (s s' : State) (evs : list Event) :
  trace s' = trace s ++ evs -> new_events s s' = evs.
Proof. intros H. unfold new_events. rewrite H. apply skipn_length_app. Qed.

Lemma new_events_refl (s : State) : new_events s s = [].
Proof. apply new_events_app. symmetry. apply app_nil_r. Qed.

Lemma populated_refreshed (user : AuthResponse.t) (d : ClientData.t) :
  populated (refreshed user d) = true.
Proof. reflexivity. Qed.

Lemma populated_set_group_id (v : Json) (d : ClientData.t) :
  populated (ClientData.set_group_id v d) = populated d.
Proof. reflexivity. Qed.

Lemma initialized_session_ok (c : APIClient) :
  initialized c = true -> session_ok c = true.
Proof. unfold initialized, session_ok. destruct (client_data c); [auto | discriminate]. Qed.

Lemma status_401_not_ok (r : Response) : status_code r = 401 -> ok r = false.
Proof. unfold ok. intros ->. reflexivity. Qed.

(** Destruct the scrutinee of an innermost [match] of the goal. *)
Ltac case_step :=
  match goal with
  | |- context [match ?x with _ => _ end] =>
      lazymatch x with
      | context [match _ with _ => _ end] => fail
      | _ => destruct x eqn:?
      end
  end.

Ltac unfold_monad :=
  unfold get_config, get_client_data, set_client_data, next_tick, emit,
    bind, ret, raise, lift in *.

Ltac unfold_methods :=
  unfold get_events, events_of, run_result, run_state, run_call, read_accessor,
    get_user_info, get_user_settings,
    get_homework_by_type, get_homework_list, resolve_group_id, subscript,
    upload_homework, delete_homework, open_file,
    get, get_with, ensure_session, the_client_data, is_token_expired, update_token,
    auth_user, send, read_clock, response_json, call_handler, new_events in *;
  unfold_monad.

(** Name the attributes of an initialized client. *)
Ltac open_client s Hinit :=
  let cfg := fresh "cfg" in
  let d := fresh "d" in
  destruct s as [[cfg [d|]] ? ?]; cbn in Hinit; try discriminate Hinit;
  destruct d as [? ? ? [?|] [?|] ?]; cbn in Hinit; try discriminate Hinit;
  clear Hinit.

(** Run the methods of the goal symbolically, one case per answer of the
    outside and per branch taken. *)
Ltac exec := unfold_methods; cbn; repeat (case_step; cbn).

(** As [exec], but leaving alone what is computed from the trace of the
    run, which [read_trace] evaluates once the run is known. *)
Ltac case_step_run :=
  match goal with
  | |- context [match ?x with _ => _ end] =>
      lazymatch x with
      | context [match _ with _ => _ end] => fail
      | context [skipn] => fail
      | _ => destruct x eqn:?
      end
  end.

Ltac exec_run := unfold_methods; cbn; repeat (case_step_run; cbn).

Ltac read_trace :=
  cbn [trace self tick config client_data fst snd];
  rewrite <- ?app_assoc; rewrite ?skipn_length_app; cbn.

Section Properties.

Variable world : World.
Variable py_str : Json -> string.

(** *** The session manager, step by step *)

Lemma auth_user_run (ld : LoginData.t) (s : State) :
  auth_user world ld s =
  (match login_reply world (tick s) (login_request ld) with
   | ReplyObject user => Ok (inl user)
   | ReplyArray errs => Ok (inr errs)
   | ReplyRaises e => Raise e
   end,
   after_event (EvLogin (login_request ld) (login_reply world (tick s) (login_request ld))) s).
Proof.
  unfold auth_user, after_event. unfold_monad. cbn.
  destruct (login_reply world (tick s) (login_request ld)); reflexivity.
Qed.

Lemma update_token_run (s : State) :
  update_token world s =
  match login_at world s with
  | ReplyObject user =>
      (Ok tt, with_session (refreshed user) (after_event (login_event world s) s))
  | ReplyArray errs =>
      (Raise (AuthenticationError errs), after_event (login_event world s) s)
  | ReplyRaises e => (Raise e, after_event (login_event world s) s)
  end.
Proof.
  destruct s as [[cfg cd] k tr].
  unfold update_token, bind at 1 2. unfold get_config at 1. cbn [fst snd].
  rewrite auth_user_run. unfold login_event, login_at. cbn [self config tick].
  destruct (login_reply world k _); try reflexivity.
  destruct cd; reflexivity.
Qed.

Lemma is_token_expired_run (s : State) :
  session_ok (self s) = true ->
  is_token_expired world s =
  match client_data (self s) with
  | None => (Ok true, s)
  | Some _ => (Ok (expired_at (now_ms world (tick s)) (self s)),
               after_event (EvClock (now_ms world (tick s))) s)
  end.
Proof.
  destruct s as [[cfg cd] k tr].
  unfold session_ok, populated, expired_at, is_token_expired, read_clock, after_event.
  unfold_monad. cbn.
  destruct cd as [d|]; [|reflexivity].
  destruct (ClientData.access_token d); [|discriminate].
  destruct (ClientData.token_expires_at d); [|discriminate].
  reflexivity.
Qed.

Lemma ensure_session_run (s : State) :
  session_ok (self s) = true ->
  ensure_session world s =
  match client_data (self s) with
  | None => (Raise UninitializedClientError, s)
  | Some _ =>
      if expired_at (now_ms world (tick s)) (self s)
      then update_token world (after_event (EvClock (now_ms world (tick s))) s)
      else (Ok tt, after_event (EvClock (now_ms world (tick s))) s)
  end.
Proof.
  intros Hok. unfold ensure_session, bind at 1.
  unfold get_client_data at 1. cbn [fst snd].
  destruct (client_data (self s)) eqn:Hcd; [|reflexivity].
  unfold bind. rewrite (is_token_expired_run s Hok), Hcd.
  destruct (expired_at _ _); reflexivity.
Qed.

(** [get] satisfies the equation the source writes. *)
Lemma get_eq (path : string) (retry : bool) (s : State) :
  get world path retry s = get_with world (get world) path retry s.
Proof.
  destruct retry; unfold get; [|reflexivity].
  unfold get_with at 1 3. unfold bind.
  repeat (case_step; try reflexivity).
Qed.

(** *** C8 *)

(** C8. On a session that is absent or populated, [is_token_expired]
    returns [True] exactly when there is no session or the clock, read in
    milliseconds at this very invocation, has reached the stored expiry.
    Each invocation that finds a session reads the clock itself, once, and
    leaves the client as it found it: nothing is cached. *)
Theorem is_token_expired_fresh (s : State) :
  session_ok (self s) = true ->
  exists b : bool,
    run_result (is_token_expired world s) = Ok b /\
    (b = true <->
     client_data (self s) = None \/
     exists d expires,
       client_data (self s) = Some d /\
       ClientData.token_expires_at d = Some expires /\
       (inject_Z expires <= now_ms world (tick s))%Q) /\
    self (run_state (is_token_expired world s)) = self s /\
    (client_data (self s) <> None ->
     new_events s (run_state (is_token_expired world s)) =
     [EvClock (now_ms world (tick s))]).
Proof.
  intros Hok. rewrite (is_token_expired_run s Hok).
  unfold session_ok in Hok. unfold expired_at.
  destruct (client_data (self s)) as [d|] eqn:Hcd.
  - unfold populated in Hok.
    destruct (ClientData.access_token d); [|discriminate].
    destruct (ClientData.token_expires_at d) as [expires|] eqn:He; [|discriminate].
    eexists. split; [reflexivity|]. split; [|split].
    + rewrite Qle_bool_iff. split.
      * intros H. right. exists d, expires. auto.
      * intros [H | (d' & e' & Hd & He' & Hle)]; [discriminate|].
        injection Hd as <-. rewrite He in He'. injection He' as <-. exact Hle.
    + reflexivity.
    + intros _. apply new_events_app. reflexivity.
  - exists true. cbn. repeat split; auto. congruence.
Qed.

(** Two invocations in a row read the clock twice, and each answers for
    its own reading. *)
Lemma is_token_expired_twice (s : State) (d : ClientData.t) :
  client_data (self s) = Some d ->
  populated d = true ->
  let s1 := run_state (is_token_expired world s) in
  run_result (is_token_expired world s) = Ok (expired_at (now_ms world (tick s)) (self s)) /\
  run_result (is_token_expired world s1) =
    Ok (expired_at (now_ms world (S (tick s))) (self s)).
Proof.
  intros Hcd Hp.
  assert (Hok : session_ok (self s) = true) by (unfold session_ok; rewrite Hcd; exact Hp).
  cbn zeta. rewrite (is_token_expired_run s Hok), Hcd. split; [reflexivity|].
  unfold run_state. cbn [snd].
  rewrite is_token_expired_run by exact Hok.
  cbn [after_event self tick]. rewrite Hcd. reflexivity.
Qed.

(** *** Keeping the invariant *)

Lemma keeps_ret {A} (a : A) : keeps (ret a).
Proof. intros s H. exact H. Qed.

Lemma keeps_raise {A} (e : Exc) : keeps (@raise A e).
Proof. intros s H. exact H. Qed.

Lemma keeps_lift {A} (r : Result A) : keeps (lift r).
Proof. intros s H. exact H. Qed.

Lemma keeps_bind {A B} (m : M A) (k : A -> M B) :
  keeps m -> (forall a, keeps (k a)) -> keeps (bind m k).
Proof.
  intros Hm Hk s H. unfold bind. specialize (Hm s H).
  destruct (m s) as [[a|e] s1]; cbn in *; [apply Hk; exact Hm | exact Hm].
Qed.

Lemma keeps_get_config : keeps get_config.
Proof. intros s H. exact H. Qed.

Lemma keeps_get_client_data : keeps get_client_data.
Proof. intros s H. exact H. Qed.

Lemma keeps_next_tick : keeps next_tick.
Proof. intros s H. exact H. Qed.

Lemma keeps_emit (e : Event) : keeps (emit e).
Proof. intros s H. exact H. Qed.

Lemma keeps_set_client_data (d : ClientData.t) :
  populated d = true -> keeps (set_client_data (Some d)).
Proof. intros Hd s _. exact Hd. Qed.

Create HintDb session.
Hint Resolve keeps_ret keeps_raise keeps_lift keeps_get_config keeps_get_client_data
  keeps_next_tick keeps_emit keeps_set_client_data : session.

Ltac keeps_steps :=
  repeat first
    [ progress intros
    | solve [auto with session]
    | apply keeps_bind
    | case_step ].

Lemma keeps_auth_user (ld : LoginData.t) : keeps (auth_user world ld).
Proof. unfold auth_user. keeps_steps. Qed.

Lemma keeps_read_clock : keeps (read_clock world).
Proof. unfold read_clock. keeps_steps. Qed.

Lemma keeps_send (req : Request) : keeps (send world req).
Proof. unfold send. keeps_steps. Qed.

Lemma keeps_response_json (r : Response) : keeps (response_json r).
Proof. unfold response_json. keeps_steps. Qed.

Lemma keeps_call_handler (h : Handler) (path : string) : keeps (call_handler h path).
Proof. unfold call_handler. keeps_steps. Qed.

Lemma keeps_the_client_data : keeps the_client_data.
Proof. unfold the_client_data. keeps_steps. Qed.

Lemma keeps_open_file (file : option FileArg) : keeps (open_file file).
Proof. unfold open_file. keeps_steps. Qed.

Lemma keeps_subscript (j : Json) (key : string) : keeps (subscript j key).
Proof. unfold subscript. keeps_steps. Qed.

Hint Resolve keeps_auth_user keeps_read_clock keeps_send keeps_response_json
  keeps_call_handler keeps_the_client_data keeps_open_file keeps_subscript : session.

Lemma keeps_is_token_expired : keeps (is_token_expired world).
Proof. unfold is_token_expired. keeps_steps. Qed.

Lemma keeps_update_token : keeps (update_token world).
Proof. unfold update_token. keeps_steps. Qed.

Hint Resolve keeps_is_token_expired keeps_update_token : session.

Lemma keeps_ensure_session : keeps (ensure_session world).
Proof. unfold ensure_session. keeps_steps. Qed.

Hint Resolve keeps_ensure_session : session.

Lemma keeps_get_with (recur : string -> bool -> M Json) (path : string) (retry : bool) :
  (forall p r, keeps (recur p r)) -> keeps (get_with world recur path retry).
Proof. intros Hrec. unfold get_with. keeps_steps. Qed.

Lemma keeps_get (path : string) (retry : bool) : keeps (get world path retry).
Proof.
  unfold get. apply keeps_get_with. intros p r.
  apply keeps_get_with. intros; apply keeps_raise.
Qed.

Hint Resolve keeps_get : session.

(** [self.client_data.group_id = v] *)
Lemma keeps_store_group_id (v : Json) :
  keeps (d <- the_client_data ;; set_client_data (Some (ClientData.set_group_id v d))).
Proof.
  intros [[cfg cd] k tr] H. unfold the_client_data. unfold_monad.
  destruct cd as [d|]; cbn in *; [|reflexivity].
  unfold session_ok in *. cbn in *. rewrite populated_set_group_id. exact H.
Qed.

Hint Resolve keeps_store_group_id : session.

Lemma keeps_resolve_group_id : keeps (resolve_group_id world).
Proof. unfold resolve_group_id, get_user_info. keeps_steps. Qed.

Hint Resolve keeps_resolve_group_id : session.

Lemma keeps_initialize : keeps (initialize world).
Proof.
  unfold initialize. apply keeps_bind; [auto with session|]. intros cfg.
  destruct (truthy_str _ && truthy_int _) eqn:Hgiven.
  - apply keeps_set_client_data. unfold populated. cbn.
    apply andb_prop in Hgiven. destruct Hgiven as [Ht He].
    destruct (ClientConfig.access_token cfg); [|discriminate].
    destruct (ClientConfig.token_expires_at cfg); [reflexivity|discriminate].
  - keeps_steps.
Qed.

Lemma keeps_run_call (c : Call) : keeps (run_call world py_str c).
Proof.
  destruct c; cbn [run_call];
    unfold get_user_info, get_user_settings, read_accessor,
      get_homework_by_type, get_homework_list, upload_homework, delete_homework;
    keeps_steps.
Qed.

Lemma keeps_run_op (o : Op) : keeps (run_op world py_str o).
Proof.
  destruct o; cbn [run_op];
    auto using keeps_initialize, keeps_update_token.
  - apply keeps_bind; auto with session.
  - apply keeps_bind; [apply keeps_run_call | auto with session].
Qed.

(** *** Calls on a client without a session *)

Lemma ensure_session_absent (s : State) :
  client_data (self s) = None ->
  ensure_session world s = (Raise UninitializedClientError, s).
Proof. intros H. unfold ensure_session. unfold_monad. rewrite H. reflexivity. Qed.

Lemma get_absent (path : string) (retry : bool) (s : State) :
  client_data (self s) = None ->
  get world path retry s = (Raise UninitializedClientError, s).
Proof.
  intros H. unfold get, get_with. unfold bind at 1.
  rewrite (ensure_session_absent s H). reflexivity.
Qed.

Lemma call_absent (c : Call) (s : State) :
  client_data (self s) = None ->
  run_call world py_str c s = (Raise UninitializedClientError, s).
Proof.
  destruct s as [[cfg cd] k tr]. cbn. intros ->.
  destruct c; reflexivity.
Qed.

Lemma calls_absent (cs : list Call) (s : State) :
  client_data (self s) = None ->
  Forall (fun r => r = Raise UninitializedClientError) (fst (run_calls world py_str cs s)) /\
  snd (run_calls world py_str cs s) = s.
Proof.
  intros H. induction cs as [|c cs [IHr IHs]]; cbn [run_calls fst snd].
  - split; [constructor | reflexivity].
  - rewrite (call_absent c s H). cbn [fst snd]. split.
    + constructor; [reflexivity | exact IHr].
    + exact IHs.
Qed.

(** The invariant holds wherever a client can get to. *)
Lemma reachable_session_ok (s : State) :
  reachable world py_str s -> session_ok (self s) = true.
Proof.
  induction 1 as [cfg | o s Hreach IH].
  - reflexivity.
  - apply keeps_run_op. exact IH.
Qed.

(** *** C5 *)

(** C5. In every state a client reaches from its construction, through any
    operations, the session is absent or has both its access token and its
    expiry set; and while it is absent every authenticated call raises
    "Client not initialized" and changes nothing. *)
Theorem session_absent_or_populated (s : State) :
  reachable world py_str s ->
  (client_data (self s) = None \/
   exists d token expires,
     client_data (self s) = Some d /\
     ClientData.access_token d = Some token /\
     ClientData.token_expires_at d = Some expires) /\
  (client_data (self s) = None ->
   forall c : Call, run_call world py_str c s = (Raise UninitializedClientError, s)).
Proof.
  intros Hreach. split.
  - pose proof (reachable_session_ok s Hreach) as Hok.
    unfold session_ok, populated in Hok.
    destruct (client_data (self s)) as [d|]; [right | left; reflexivity].
    destruct (ClientData.access_token d) as [token|] eqn:Ht; [|discriminate].
    destruct (ClientData.token_expires_at d) as [expires|] eqn:He; [|discriminate].
    exists d, token, expires. auto.
  - intros Habsent c. apply call_absent. exact Habsent.
Qed.

(** *** Logging in *)

Lemma initialize_login_run (s : State) :
  token_given (config (self s)) = false ->
  initialize world s =
  match login_at world s with
  | ReplyObject user =>
      (Ok tt,
       mkState
         (mkClient (config (self s))
            (Some (ClientData.mk
               (ClientConfig.login_data (config (self s)))
               (if String.eqb (ClientConfig.language (config (self s))) "" then "en"
                else ClientConfig.language (config (self s)))
               (ClientConfig.cache (config (self s)))
               (Some (AuthResponse.access_token user))
               (Some (AuthResponse.expires_in_access user * 1000))
               (of_optional_int (ClientConfig.group_id (config (self s)))))))
         (S (tick s)) (trace s ++ [login_event world s]))
  | ReplyArray errs =>
      (Raise (AuthenticationError errs), after_event (login_event world s) s)
  | ReplyRaises e => (Raise e, after_event (login_event world s) s)
  end.
Proof.
  intros Hgiven. unfold token_given in Hgiven.
  unfold initialize, bind at 1. unfold get_config at 1. cbn [fst snd].
  rewrite Hgiven. unfold bind. rewrite auth_user_run.
  unfold login_event, login_at.
  destruct (login_reply world (tick s) _); reflexivity.
Qed.

(** C1, as the code has it.  A successful login, in [initialize] when the
    configuration brings no token and in [update_token], stores as expiry
    the provider's [expires_in_access] multiplied by 1000 (seconds turned
    into the milliseconds [is_token_expired] compares with) and reads no
    clock: the login exchange is the only event. *)
Theorem login_stores_provider_expiry (s : State) (user : AuthResponse.t) :
  login_at world s = ReplyObject user ->
  (token_given (config (self s)) = false ->
   run_result (initialize world s) = Ok tt /\
   (exists d,
      client_data (self (run_state (initialize world s))) = Some d /\
      ClientData.token_expires_at d =
        Some (AuthResponse.expires_in_access user * 1000)) /\
   new_events s (run_state (initialize world s)) = [login_event world s]) /\
  (client_data (self s) <> None ->
   run_result (update_token world s) = Ok tt /\
   (exists d,
      client_data (self (run_state (update_token world s))) = Some d /\
      ClientData.token_expires_at d =
        Some (AuthResponse.expires_in_access user * 1000)) /\
   new_events s (run_state (update_token world s)) = [login_event world s]).
Proof.
  intros Hlogin. split.
  - intros Hgiven. rewrite (initialize_login_run s Hgiven), Hlogin.
    split; [reflexivity|]. split.
    + eexists. split; reflexivity.
    + apply new_events_app. reflexivity.
  - intros Hcd. rewrite update_token_run, Hlogin.
    split; [reflexivity|]. split.
    + destruct (client_data (self s)) as [d|] eqn:Hd; [|congruence].
      exists (refreshed user d). unfold run_state. cbn. rewrite Hd. split; reflexivity.
    + apply new_events_app. reflexivity.
Qed.

(** *** C7 *)

(** C7. A refresh that succeeds writes the new access token and the new
    expiry into the session and leaves its login data, language, cache and
    group id, and the configuration, as they were. *)
Theorem update_token_frame (s : State) (d : ClientData.t) :
  client_data (self s) = Some d ->
  run_result (update_token world s) = Ok tt ->
  exists user d',
    login_at world s = ReplyObject user /\
    client_data (self (run_state (update_token world s))) = Some d' /\
    ClientData.access_token d' = Some (AuthResponse.access_token user) /\
    ClientData.token_expires_at d' = Some (AuthResponse.expires_in_access user * 1000) /\
    ClientData.login_data d' = ClientData.login_data d /\
    ClientData.language d' = ClientData.language d /\
    ClientData.cache d' = ClientData.cache d /\
    ClientData.group_id d' = ClientData.group_id d /\
    config (self (run_state (update_token world s))) = config (self s).
Proof.
  intros Hd. rewrite update_token_run.
  destruct (login_at world s) as [user|errs|e]; cbn; try discriminate.
  intros _. exists user, (refreshed user d). rewrite Hd. cbn.
  repeat split.
Qed.

(** *** C4 *)

(** C4. When the configuration brings no token and the provider answers
    the login with an array of field errors, [initialize] raises with that
    array and leaves the client without a session; whatever authenticated
    calls follow, each raises "Client not initialized", and none of them
    sends anything or changes the client. *)
Theorem failed_login_leaves_no_session (s : State) (errs : list AuthError.t)
    (calls : list Call) :
  client_data (self s) = None ->
  token_given (config (self s)) = false ->
  login_at world s = ReplyArray errs ->
  run_result (initialize world s) = Raise (AuthenticationError errs) /\
  client_data (self (run_state (initialize world s))) = None /\
  Forall (fun r => r = Raise UninitializedClientError)
    (fst (run_calls world py_str calls (run_state (initialize world s)))) /\
  snd (run_calls world py_str calls (run_state (initialize world s))) =
    run_state (initialize world s) /\
  requests_sent (new_events s (run_state (initialize world s))) = 0%nat.
Proof.
  intros Hcd Hgiven Hlogin.
  rewrite (initialize_login_run s Hgiven), Hlogin. unfold run_result, run_state.
  cbn [fst snd].
  assert (Habsent : client_data (self (after_event (login_event world s) s)) = None)
    by exact Hcd.
  split; [reflexivity|]. split; [exact Habsent|].
  destruct (calls_absent calls _ Habsent) as [Hr Hs].
  split; [exact Hr|]. split; [exact Hs|].
  erewrite new_events_app by reflexivity. reflexivity.
Qed.

(** *** Adding to the trace *)

Lemma extends_ret {A} (a : A) : extends (ret a).
Proof. intros s. exists []. symmetry. apply app_nil_r. Qed.

Lemma extends_raise {A} (e : Exc) : extends (@raise A e).
Proof. intros s. exists []. symmetry. apply app_nil_r. Qed.

Lemma extends_lift {A} (r : Result A) : extends (lift r).
Proof. intros s. exists []. symmetry. apply app_nil_r. Qed.

Lemma extends_bind {A B} (m : M A) (k : A -> M B) :
  extends m -> (forall a, extends (k a)) -> extends (bind m k).
Proof.
  intros Hm Hk s. unfold bind. destruct (Hm s) as [evs1 H1].
  destruct (m s) as [[a|e] s1]; cbn in *.
  - destruct (Hk a s1) as [evs2 H2]. exists (evs1 ++ evs2).
    rewrite H2, H1. symmetry. apply app_assoc.
  - exists evs1. exact H1.
Qed.

Lemma extends_get_config : extends get_config.
Proof. intros s. exists []. symmetry. apply app_nil_r. Qed.

Lemma extends_get_client_data : extends get_client_data.
Proof. intros s. exists []. symmetry. apply app_nil_r. Qed.

Lemma extends_set_client_data (d : option ClientData.t) : extends (set_client_data d).
Proof. intros s. exists []. symmetry. apply app_nil_r. Qed.

Lemma extends_next_tick : extends next_tick.
Proof. intros s. exists []. symmetry. apply app_nil_r. Qed.

Lemma extends_emit (e : Event) : extends (emit e).
Proof. intros s. exists [e]. reflexivity. Qed.

Create HintDb trace.
Hint Resolve extends_ret extends_raise extends_lift extends_get_config
  extends_get_client_data extends_set_client_data extends_next_tick extends_emit : trace.

Ltac extends_steps :=
  repeat first
    [ progress intros
    | solve [auto with trace]
    | apply extends_bind
    | case_step ].

Lemma extends_update_token : extends (update_token world).
Proof. unfold update_token, auth_user. extends_steps. Qed.

Lemma extends_ensure_session : extends (ensure_session world).
Proof.
  pose proof extends_update_token.
  unfold ensure_session, is_token_expired, read_clock. extends_steps.
Qed.

Lemma extends_the_client_data : extends the_client_data.
Proof. unfold the_client_data. extends_steps. Qed.

Hint Resolve extends_update_token extends_ensure_session extends_the_client_data : trace.

Lemma extends_get_with (recur : string -> bool -> M Json) (path : string) (retry : bool) :
  (forall p r, extends (recur p r)) -> extends (get_with world recur path retry).
Proof.
  intros Hrec. unfold get_with, send, call_handler, response_json. extends_steps.
Qed.

Lemma extends_get (path : string) (retry : bool) : extends (get world path retry).
Proof.
  unfold get. apply extends_get_with. intros p r.
  apply extends_get_with. intros; apply extends_raise.
Qed.

Hint Resolve extends_get : trace.

Lemma new_events_bind {A B} (m : M A) (k : A -> M B) (s : State) :
  extends m -> (forall a, extends (k a)) ->
  exists more,
    new_events s (snd (bind m k s)) = new_events s (snd (m s)) ++ more /\
    (forall e, fst (m s) = Raise e -> more = []).
Proof.
  intros Hm Hk. unfold bind. destruct (Hm s) as [evs1 H1].
  destruct (m s) as [[a|e] s1]; cbn in *.
  - destruct (Hk a s1) as [evs2 H2]. exists evs2. split; [|discriminate].
    rewrite (new_events_app s s1 evs1 H1).
    apply new_events_app. rewrite H2, H1. symmetry. apply app_assoc.
  - exists []. split; [symmetry; apply app_nil_r | reflexivity].
Qed.

(** *** What a call does first *)

Lemma before_send_session_events (s : State) (tail : list Event) :
  opens_with_request tail ->
  before_send (session_events world s ++ tail) = session_events world s.
Proof.
  intros Htail. unfold session_events.
  assert (Hb : before_send tail = []).
  { destruct Htail as [-> | (req & reply & rest & ->)]; reflexivity. }
  destruct (expired_at _ _); cbn; rewrite Hb; reflexivity.
Qed.

Lemma refreshes_session_events (s : State) :
  refreshes (session_events world s) =
  (if expired_at (now_ms world (tick s)) (self s) then 1 else 0)%nat.
Proof. unfold session_events. destruct (expired_at _ _); reflexivity. Qed.

Ltac close_opening :=
  read_trace; eexists; split; [reflexivity|];
  split; [first [left; reflexivity | right; do 3 eexists; reflexivity]|];
  split; [first [discriminate | intros; discriminate]|];
  first [discriminate | intros; discriminate].

(** [get] opens with the session check, and sends next unless the refresh
    failed. *)
Lemma get_opening (path : string) (retry : bool) (s : State) :
  initialized (self s) = true ->
  opening world true (get world path retry) s.
Proof.
  intros Hinit. open_client s Hinit.
  unfold opening, session_events, login_event, login_at, expired_at.
  exec; close_opening.
Qed.

Lemma opening_bind {A B} (must_send : bool) (m : M A) (k : A -> M B) (s : State) :
  extends m -> (forall a, extends (k a)) ->
  opening world must_send m s -> opening world must_send (bind m k) s.
Proof.
  intros Hm Hk (tail & Hev & Hopen & Hsend & Hraise).
  destruct (new_events_bind m k s Hm Hk) as (more & Hmore & Hstop).
  destruct tail as [|e tail].
  - assert (more = []) as ->.
    { destruct (fst (m s)) as [a|e] eqn:Hr; [|eapply Hstop; reflexivity].
      exfalso. exact (Hraise eq_refl a eq_refl). }
    exists []. rewrite Hmore, Hev, app_nil_r.
    split; [reflexivity|]. split; [left; reflexivity|]. split; [exact Hsend|].
    intros _ b Hb. unfold bind in Hb.
    destruct (m s) as [[a|e] s1] eqn:Hms; cbn in *; [|discriminate].
    exact (Hraise eq_refl a eq_refl).
  - exists ((e :: tail) ++ more). rewrite Hmore, Hev, app_assoc.
    split; [reflexivity|]. split; [|split; intros; discriminate].
    destruct Hopen as [H | (req & reply & rest & H)]; [discriminate|].
    injection H as -> ->. right. do 3 eexists. reflexivity.
Qed.

Lemma upload_opening (homework_id : Z) (answer_text : option string)
    (file : option FileArg) (hours minutes : Z) (s : State) :
  initialized (self s) = true ->
  opening world (opens (CUpload homework_id answer_text file hours minutes))
    (upload_homework world py_str homework_id answer_text file hours minutes) s.
Proof.
  intros Hinit. open_client s Hinit.
  unfold opening, session_events, login_event, login_at, expired_at, opens.
  exec; close_opening.
Qed.

Lemma delete_opening (homework_id : Z + string) (s : State) :
  initialized (self s) = true ->
  opening world true (delete_homework world homework_id) s.
Proof.
  intros Hinit. open_client s Hinit.
  unfold opening, session_events, login_event, login_at, expired_at.
  exec; close_opening.
Qed.

Lemma extends_resolve_group_id : extends (resolve_group_id world).
Proof.
  unfold resolve_group_id, get_user_info, subscript. extends_steps.
Qed.

Hint Resolve extends_resolve_group_id : trace.

Lemma resolve_group_id_run (s : State) (d : ClientData.t) :
  client_data (self s) = Some d ->
  resolve_group_id world s =
  if truthy (ClientData.group_id d) then (Ok tt, s)
  else (user_info <- get_user_info world ;;
        if negb (truthy user_info) then raise GroupIdError
        else
          v <- subscript user_info "current_group_id" ;;
          d <- the_client_data ;;
          set_client_data (Some (ClientData.set_group_id v d))) s.
Proof.
  intros Hcd. unfold resolve_group_id. unfold bind at 1.
  unfold get_client_data at 1. cbn [fst snd]. rewrite Hcd.
  destruct (truthy (ClientData.group_id d)); reflexivity.
Qed.

Lemma resolve_then_get_opening (path_of : ClientData.t -> string) (s : State) :
  initialized (self s) = true ->
  opening world true
    (resolve_group_id world ;; d <- the_client_data ;; get world (path_of d) true) s.
Proof.
  intros Hinit.
  destruct (client_data (self s)) as [d|] eqn:Hcd;
    [|unfold initialized in Hinit; rewrite Hcd in Hinit; discriminate].
  destruct (truthy (ClientData.group_id d)) eqn:Hgid.
  - assert (Hrun : (resolve_group_id world ;; d <- the_client_data ;;
                    get world (path_of d) true) s = get world (path_of d) true s).
    { unfold bind at 1. rewrite (resolve_group_id_run s d Hcd), Hgid.
      unfold the_client_data. unfold_monad. rewrite Hcd. reflexivity. }
    unfold opening. rewrite Hrun. apply get_opening. exact Hinit.
  - apply opening_bind; [auto with trace | extends_steps |].
    unfold opening. rewrite (resolve_group_id_run s d Hcd), Hgid.
    apply opening_bind; [apply extends_get | | apply get_opening; exact Hinit].
    unfold subscript. extends_steps.
Qed.

Lemma call_opening (c : Call) (s : State) :
  initialized (self s) = true ->
  opening world (opens c) (run_call world py_str c) s.
Proof.
  intros Hinit. destruct c; cbn [run_call opens].
  - apply get_opening; exact Hinit.
  - apply get_opening; exact Hinit.
  - apply get_opening; exact Hinit.
  - apply opening_bind; [auto with trace | auto with trace |].
    apply get_opening; exact Hinit.
  - apply (resolve_then_get_opening _ s Hinit).
  - apply (resolve_then_get_opening _ s Hinit).
  - apply upload_opening; exact Hinit.
  - apply opening_bind; [ | auto with trace | apply delete_opening; exact Hinit].
    unfold delete_homework, send. extends_steps.
Qed.

(** *** Logins that are written into the session *)

Lemma first_accepted_app (a b : list Event) :
  first_accepted (a ++ b) =
  match first_accepted a with Some user => Some user | None => first_accepted b end.
Proof.
  induction a as [|e a IH]; [reflexivity|].
  destruct e as [now | req reply | req reply | h path]; cbn; try exact IH.
  destruct reply; [reflexivity | exact IH | exact IH].
Qed.

Lemma last_login_app (a b : list Event) :
  last_login (a ++ b) =
  match last_login b with Some user => Some user | None => last_login a end.
Proof. unfold last_login. rewrite rev_app_distr. apply first_accepted_app. Qed.

Lemma token_after_app (a b : list Event) (c c1 : APIClient) :
  token_of c1 = token_after a c -> token_after b c1 = token_after (a ++ b) c.
Proof.
  intros H. unfold token_after in *. rewrite last_login_app.
  destruct (last_login b); [reflexivity | exact H].
Qed.

Lemma expiry_after_app (a b : list Event) (c c1 : APIClient) :
  expiry_of c1 = expiry_after a c -> expiry_after b c1 = expiry_after (a ++ b) c.
Proof.
  intros H. unfold expiry_after in *. rewrite last_login_app.
  destruct (last_login b); [reflexivity | exact H].
Qed.

Lemma tracks_bind {A B} (m : M A) (k : A -> M B) :
  tracks m -> (forall a, tracks (k a)) -> tracks (bind m k).
Proof.
  intros Hm Hk s Hs. unfold bind. destruct (Hm s Hs) as (evs1 & H1 & Hs1 & Ht1 & He1).
  destruct (m s) as [[a|e] s1]; cbn [fst snd] in *.
  - destruct (Hk a s1 Hs1) as (evs2 & H2 & Hs2 & Ht2 & He2).
    exists (evs1 ++ evs2). rewrite H2, H1, app_assoc.
    split; [reflexivity|]. split; [exact Hs2|]. split.
    + rewrite Ht2. apply token_after_app. exact Ht1.
    + rewrite He2. apply expiry_after_app. exact He1.
  - exists evs1. auto.
Qed.

Lemma tracks_silent {A} (m : M A) :
  (forall s, self (snd (m s)) = self s /\ trace (snd (m s)) = trace s) -> tracks m.
Proof.
  intros H s Hs. destruct (H s) as [Hself Htrace]. exists [].
  rewrite Hself, Htrace, app_nil_r. auto.
Qed.

Lemma tracks_ret {A} (a : A) : tracks (ret a).
Proof. apply tracks_silent. intros s. split; reflexivity. Qed.

Lemma tracks_raise {A} (e : Exc) : tracks (@raise A e).
Proof. apply tracks_silent. intros s. split; reflexivity. Qed.

Lemma tracks_lift {A} (r : Result A) : tracks (lift r).
Proof. apply tracks_silent. intros s. split; reflexivity. Qed.

Lemma tracks_get_config : tracks get_config.
Proof. apply tracks_silent. intros s. split; reflexivity. Qed.

Lemma tracks_get_client_data : tracks get_client_data.
Proof. apply tracks_silent. intros s. split; reflexivity. Qed.

Lemma tracks_next_tick : tracks next_tick.
Proof. apply tracks_silent. intros s. split; reflexivity. Qed.

Lemma tracks_emit (e : Event) : is_login e = false -> tracks (emit e).
Proof.
  intros He s Hs. exists [e]. split; [reflexivity|]. split; [exact Hs|].
  destruct e; try discriminate He; split; reflexivity.
Qed.

Lemma tracks_update_token : tracks (update_token world).
Proof.
  intros s Hs. rewrite update_token_run.
  exists [login_event world s]. unfold login_event, token_after, expiry_after, last_login.
  destruct (client_data (self s)) as [d|] eqn:Hd; [clear Hs | congruence].
  destruct (login_at world s);
    cbn [fst snd with_session after_event self config client_data trace rev app
         first_accepted token_of expiry_of];
    rewrite Hd; cbn; repeat split; discriminate.
Qed.

(** [self.client_data.group_id = v] *)
Lemma tracks_store_group_id (v : Json) :
  tracks (d <- the_client_data ;; set_client_data (Some (ClientData.set_group_id v d))).
Proof.
  intros [[cfg cd] k tr] Hs. unfold the_client_data. unfold_monad.
  destruct cd as [d|]; cbn in *; [|congruence].
  exists []. rewrite app_nil_r. repeat split. discriminate.
Qed.

Create HintDb sync.
Hint Resolve tracks_ret tracks_raise tracks_lift tracks_get_config tracks_get_client_data
  tracks_next_tick tracks_emit tracks_update_token tracks_store_group_id : sync.

Ltac tracks_steps :=
  repeat first
    [ progress intros
    | solve [auto with sync]
    | apply tracks_bind
    | case_step ].

Lemma tracks_ensure_session : tracks (ensure_session world).
Proof. unfold ensure_session, is_token_expired, read_clock. tracks_steps. Qed.

Lemma tracks_the_client_data : tracks the_client_data.
Proof. unfold the_client_data. tracks_steps. Qed.

Lemma tracks_send (req : Request) : tracks (send world req).
Proof. unfold send. tracks_steps. Qed.

Hint Resolve tracks_ensure_session tracks_the_client_data tracks_send : sync.

Lemma tracks_get_with (recur : string -> bool -> M Json) (path : string) (retry : bool) :
  (forall p r, tracks (recur p r)) -> tracks (get_with world recur path retry).
Proof. intros Hrec. unfold get_with, call_handler, response_json. tracks_steps. Qed.

Lemma tracks_get (path : string) (retry : bool) : tracks (get world path retry).
Proof.
  unfold get. apply tracks_get_with. intros p r.
  apply tracks_get_with. intros; apply tracks_raise.
Qed.

Hint Resolve tracks_get : sync.

Lemma tracks_run_call (c : Call) : tracks (run_call world py_str c).
Proof.
  destruct c; cbn [run_call];
    unfold get_user_info, get_user_settings, read_accessor,
      get_homework_by_type, get_homework_list, resolve_group_id, get_user_info, subscript,
      upload_homework, delete_homework, open_file, response_json;
    tracks_steps.
Qed.

(** *** The token of the first request *)

Lemma bind_view {A B} (must_send : bool) (m : M A) (k : A -> M B) (s : State) :
  extends m -> (forall a, extends (k a)) -> opening world must_send m s ->
  first_request (new_events s (snd (bind m k s))) = first_request (new_events s (snd (m s))) /\
  before_send (new_events s (snd (bind m k s))) = before_send (new_events s (snd (m s))).
Proof.
  intros Hm Hk (tail & Hev & Hopen & _ & Hraise).
  destruct (new_events_bind m k s Hm Hk) as (more & Hmore & Hstop).
  rewrite Hmore, Hev.
  destruct Hopen as [-> | (req & reply & rest & ->)].
  - assert (more = []) as ->.
    { destruct (fst (m s)) as [a|e] eqn:Hr; [|eapply Hstop; reflexivity].
      exfalso. exact (Hraise eq_refl a eq_refl). }
    rewrite !app_nil_r. split; reflexivity.
  - unfold session_events. destruct (expired_at _ _); split; reflexivity.
Qed.

Lemma bears_bind {A B} (must_send : bool) (m : M A) (k : A -> M B) (s : State) :
  extends m -> (forall a, extends (k a)) -> opening world must_send m s ->
  bears_current_token world m s -> bears_current_token world (bind m k) s.
Proof.
  intros Hm Hk Hopen Hbears. unfold bears_current_token.
  destruct (bind_view must_send m k s Hm Hk Hopen) as [-> ->]. exact Hbears.
Qed.

Ltac close_bears :=
  read_trace; intros req Hf; try discriminate Hf; injection Hf as <-;
  (split; [reflexivity | first [ discriminate | intros; discriminate ]]).

Lemma get_bears (path : string) (retry : bool) (s : State) :
  initialized (self s) = true -> bears_current_token world (get world path retry) s.
Proof.
  intros Hinit. open_client s Hinit. unfold bears_current_token, expired_at.
  exec_run; close_bears.
Qed.

Lemma upload_bears (homework_id : Z) (answer_text : option string)
    (file : option FileArg) (hours minutes : Z) (s : State) :
  initialized (self s) = true ->
  bears_current_token world
    (upload_homework world py_str homework_id answer_text file hours minutes) s.
Proof.
  intros Hinit. open_client s Hinit. unfold bears_current_token, expired_at.
  exec_run; close_bears.
Qed.

Lemma delete_bears (homework_id : Z + string) (s : State) :
  initialized (self s) = true ->
  bears_current_token world (delete_homework world homework_id) s.
Proof.
  intros Hinit. open_client s Hinit. unfold bears_current_token, expired_at.
  exec_run; close_bears.
Qed.

Lemma resolve_then_get_bears (path_of : ClientData.t -> string) (s : State) :
  initialized (self s) = true ->
  bears_current_token world
    (resolve_group_id world ;; d <- the_client_data ;; get world (path_of d) true) s.
Proof.
  intros Hinit.
  destruct (client_data (self s)) as [d|] eqn:Hcd;
    [|unfold initialized in Hinit; rewrite Hcd in Hinit; discriminate].
  destruct (truthy (ClientData.group_id d)) eqn:Hgid.
  - assert (Hrun : (resolve_group_id world ;; d <- the_client_data ;;
                    get world (path_of d) true) s = get world (path_of d) true s).
    { unfold bind at 1. rewrite (resolve_group_id_run s d Hcd), Hgid.
      unfold the_client_data. unfold_monad. rewrite Hcd. reflexivity. }
    unfold bears_current_token. rewrite Hrun. apply get_bears. exact Hinit.
  - assert (Hfetch : forall (P : Result unit * State -> Prop),
               P ((user_info <- get_user_info world ;;
                   if negb (truthy user_info) then raise GroupIdError
                   else
                     v <- subscript user_info "current_group_id" ;;
                     d <- the_client_data ;;
                     set_client_data (Some (ClientData.set_group_id v d))) s) ->
               P (resolve_group_id world s)).
    { intros P HP. rewrite (resolve_group_id_run s d Hcd), Hgid. exact HP. }
    assert (Hx : forall a : Json,
               extends (if negb (truthy a) then raise GroupIdError
                        else
                          v <- subscript a "current_group_id" ;;
                          d <- the_client_data ;;
                          set_client_data (Some (ClientData.set_group_id v d))))
      by (unfold subscript; extends_steps).
    apply (bears_bind true); [auto with trace | extends_steps | |].
    + unfold opening. apply Hfetch.
      apply opening_bind; [apply extends_get | exact Hx | apply get_opening; exact Hinit].
    + unfold bears_current_token. apply Hfetch.
      apply (bears_bind true);
        [apply extends_get | exact Hx | apply get_opening; exact Hinit
        | apply get_bears; exact Hinit].
Qed.

Lemma call_bears (c : Call) (s : State) :
  initialized (self s) = true -> bears_current_token world (run_call world py_str c) s.
Proof.
  intros Hinit. destruct c; cbn [run_call].
  - apply get_bears; exact Hinit.
  - apply get_bears; exact Hinit.
  - apply get_bears; exact Hinit.
  - apply (bears_bind true); [auto with trace | auto with trace | |].
    + apply get_opening; exact Hinit.
    + apply get_bears; exact Hinit.
  - apply (resolve_then_get_bears _ s Hinit).
  - apply (resolve_then_get_bears _ s Hinit).
  - apply upload_bears; exact Hinit.
  - apply (bears_bind true); [ | auto with trace | |].
    + unfold delete_homework, send. extends_steps.
    + apply delete_opening; exact Hinit.
    + apply delete_bears; exact Hinit.
Qed.

(** *** C6 *)

(** C6. Whatever authenticated call is made on an initialized client, it
    first reads the clock; if that reading has reached the stored expiry,
    exactly one refresh takes place before the first request goes out, and
    if it has not, none does.  Unless the refresh fails (or the attachment
    of an upload cannot be opened), the request is then sent.  The refresh
    is a real one: the request bears the token the login has just handed
    out (the stored token when there was no refresh), and when the call is
    over the session holds the token and the expiry of the last login the
    provider accepted during it. *)
Theorem refresh_before_send (c : Call) (s : State) :
  initialized (self s) = true ->
  refreshes (before_send (events_of world py_str c s)) =
    (if expired_at (now_ms world (tick s)) (self s) then 1 else 0)%nat /\
  (exists rest,
     events_of world py_str c s = EvClock (now_ms world (tick s)) :: rest) /\
  (opens c = true ->
   logins_accepted (before_send (events_of world py_str c s)) = true ->
   first_request (events_of world py_str c s) <> None) /\
  (forall req,
     first_request (events_of world py_str c s) = Some req ->
     header "authorization" req
       = Some (bearer (token_after (before_send (events_of world py_str c s)) (self s))) /\
     (expired_at (now_ms world (tick s)) (self s) = true ->
      exists user,
        last_login (before_send (events_of world py_str c s)) = Some user /\
        header "authorization" req
          = Some (bearer (Some (AuthResponse.access_token user))))) /\
  token_of (self (run_state (run_call world py_str c s)))
    = token_after (events_of world py_str c s) (self s) /\
  expiry_of (self (run_state (run_call world py_str c s)))
    = expiry_after (events_of world py_str c s) (self s).
Proof.
  intros Hinit.
  assert (Hwritten :
    token_of (self (run_state (run_call world py_str c s)))
      = token_after (events_of world py_str c s) (self s) /\
    expiry_of (self (run_state (run_call world py_str c s)))
      = expiry_after (events_of world py_str c s) (self s)).
  { assert (Hcd : client_data (self s) <> None).
    { unfold initialized in Hinit. destruct (client_data (self s)); discriminate. }
    destruct (tracks_run_call c s Hcd) as (evs & Htrace & _ & Htoken & Hexpiry).
    unfold events_of, run_state. rewrite (new_events_app _ _ evs Htrace). auto. }
  assert (Hbears :
    forall req,
      first_request (events_of world py_str c s) = Some req ->
      header "authorization" req
        = Some (bearer (token_after (before_send (events_of world py_str c s)) (self s))) /\
      (expired_at (now_ms world (tick s)) (self s) = true ->
       exists user,
         last_login (before_send (events_of world py_str c s)) = Some user /\
         header "authorization" req
           = Some (bearer (Some (AuthResponse.access_token user))))).
  { intros req Hreq. destruct (call_bears c s Hinit req Hreq) as [Hauth Hrefreshed].
    split; [exact Hauth|]. intros Hexp. specialize (Hrefreshed Hexp).
    unfold events_of, run_state. unfold token_after in Hauth.
    destruct (last_login (before_send (new_events s (snd (run_call world py_str c s)))))
      as [user|]; [|congruence].
    exists user. split; [reflexivity | exact Hauth]. }
  destruct (call_opening c s Hinit) as (tail & Hev & Hopen & Hsend & _).
  split; [|split; [|split; [|split; [exact Hbears | exact Hwritten]]]].
  - unfold events_of, run_state. rewrite Hev.
    rewrite (before_send_session_events s tail Hopen). apply refreshes_session_events.
  - unfold events_of, run_state. rewrite Hev. eexists. reflexivity.
  - unfold events_of, run_state. rewrite Hev.
    rewrite (before_send_session_events s tail Hopen).
    intros Hopens Hacc. specialize (Hsend Hopens Hacc).
    destruct Hopen as [-> | (req & reply & rest & ->)]; [congruence|].
    unfold session_events. destruct (expired_at _ _); discriminate.
Qed.

(** *** C3 *)

(** C3. When a handler is configured and the request of a [get] is
    answered 401, the handler is called once, with the path of the call,
    and the call returns [None]; that call of the handler is all that
    follows the response: no refresh, and no second request. *)
Theorem unauthorized_with_handler (s : State) (path : string) (retry : bool)
    (h : Handler) (resp : Response) :
  initialized (self s) = true ->
  ClientConfig.on_unauthorized (config (self s)) = Some h ->
  first_reply (get_events world path retry s) = Some (Responded resp) ->
  status_code resp = 401 ->
  run_result (get world path retry s) = Ok JNull /\
  after_send (get_events world path retry s) = [EvCallback h path] /\
  callbacks (get_events world path retry s) = 1%nat /\
  requests_sent (get_events world path retry s) = 1%nat /\
  forced_refreshes (get_events world path retry s) = 0%nat.
Proof.
  intros Hinit Hh. open_client s Hinit.
  destruct cfg as [? ? ? ? ? ? c_h]. cbn in Hh. subst c_h.
  exec.
  all: read_trace.
  all: try discriminate.
  all: intros Hf; injection Hf as ->; intros H401.
  all: try (rewrite H401 in *; discriminate).
  all: repeat split.
Qed.

(** *** C2 *)

(** C2, as the code has it.  On an initialized client without a handler,
    a [get] never sends more than two requests.  When its first request is
    answered 401, one forced refresh follows at once and it is the only
    one.  If a login is then rejected or fails, that failure is what the
    call raises and the request is not sent again; otherwise the request is
    sent again, once, to the same URL (the retry being a [get] of its own,
    it checks the expiry first).  The forced refresh is a real one: the
    retry bears the token of the last login that precedes it, and when the
    call is over the session holds the token and the expiry of the last
    login the provider accepted.  When this second request is answered 401
    too, the call raises "Access token is expired or invalid" and nothing
    more happens. *)
Theorem unauthorized_single_retry (s : State) (path : string) :
  initialized (self s) = true ->
  ClientConfig.on_unauthorized (config (self s)) = None ->
  (requests_sent (get_events world path true s) <= 2)%nat /\
  callbacks (get_events world path true s) = 0%nat /\
  token_of (self (run_state (get world path true s)))
    = token_after (get_events world path true s) (self s) /\
  expiry_of (self (run_state (get world path true s)))
    = expiry_after (get_events world path true s) (self s) /\
  forall resp,
    first_reply (get_events world path true s) = Some (Responded resp) ->
    status_code resp = 401 ->
    forced_refreshes (get_events world path true s) = 1%nat /\
    (exists lreq lrep retry_events,
       after_send (get_events world path true s) = EvLogin lreq lrep :: retry_events /\
       forced_refreshes retry_events = 0%nat /\
       (requests_sent retry_events <= 1)%nat) /\
    (forall e,
       login_failure (after_send (get_events world path true s)) = Some e ->
       run_result (get world path true s) = Raise e /\
       requests_sent (after_send (get_events world path true s)) = 0%nat) /\
    (logins_accepted (after_send (get_events world path true s)) = true ->
       requests_sent (after_send (get_events world path true s)) = 1%nat /\
       option_map url (first_request (after_send (get_events world path true s)))
         = Some (get_url path) /\
       option_map method (first_request (after_send (get_events world path true s)))
         = Some GET) /\
    (forall resp2,
       first_reply (after_send (get_events world path true s)) = Some (Responded resp2) ->
       status_code resp2 = 401 ->
       run_result (get world path true s) = Raise UnauthorizedError /\
       after_send (after_send (get_events world path true s)) = []) /\
    (forall req2,
       first_request (after_send (get_events world path true s)) = Some req2 ->
       exists user,
         last_login (before_send (after_send (get_events world path true s))) = Some user /\
         header "authorization" req2
           = Some (bearer (Some (AuthResponse.access_token user))) /\
         forall d, client_data (self s) = Some d ->
                   header "x-language" req2 = Some (ClientData.language d)).
Proof.
  intros Hinit Hh. open_client s Hinit.
  destruct cfg as [? ? ? ? ? ? c_h]. cbn in Hh. subst c_h.
  exec_run.
  all: read_trace.
  all: split; [lia|].
  all: split; [reflexivity|].
  all: split; [reflexivity|].
  all: split; [reflexivity|].
  all: intros resp Hf H401; try discriminate Hf.
  all: injection Hf as ->.
  all: try (rewrite H401 in *; discriminate).
  all: split; [reflexivity|].
  all: split; [do 3 eexists; split; [reflexivity|]; split; [reflexivity|cbn; lia] |].
  all: split; [intros e0 Hfail; try discriminate Hfail;
              injection Hfail as <-; split; reflexivity |].
  all: split; [intros Hacc; try discriminate Hacc; repeat split |].
  all: split; [intros resp2 Hf2 H2; try discriminate Hf2;
              injection Hf2 as ->; try (rewrite H2 in *; discriminate);
              split; reflexivity |].
  all: intros req2 Hr2; try discriminate Hr2.
  all: injection Hr2 as <-.
  all: eexists; split; [reflexivity|]; split; [reflexivity|].
  all: intros d0 Hd0; injection Hd0 as <-; reflexivity.
Qed.

(** *** C9 *)

(** C9. When the provider answers the request of [delete_homework] with a
    success status, the call returns whether the body differs from the
    text [null]: [True] exactly when it differs, [False] for [null]. *)
Theorem delete_reports_non_null (s : State) (homework_id : Z + string)
    (resp : Response) :
  initialized (self s) = true ->
  first_reply (new_events s (run_state (delete_homework world homework_id s)))
    = Some (Responded resp) ->
  ok resp = true ->
  run_result (delete_homework world homework_id s)
    = Ok (negb (String.eqb (text resp) "null")) /\
  (run_result (delete_homework world homework_id s) = Ok true <-> text resp <> "null") /\
  (text resp = "null" -> run_result (delete_homework world homework_id s) = Ok false).
Proof.
  intros Hinit Hfirst Hok.
  assert (Hrun : run_result (delete_homework world homework_id s)
                 = Ok (negb (String.eqb (text resp) "null"))).
  { revert Hfirst. open_client s Hinit. exec.
    all: read_trace.
    all: intros Hf; try discriminate Hf.
    all: injection Hf as ->.
    all: try (rewrite Hok in *; discriminate).
    all: reflexivity. }
  split; [exact Hrun|]. rewrite Hrun. split.
  - destruct (String.eqb_spec (text resp) "null") as [Heq|Hne]; cbn.
    + split; [discriminate | intros H; contradiction].
    + split; [intros _; exact Hne | reflexivity].
  - intros ->. reflexivity.
Qed.

(** *** C10 *)

(** C10. [upload_homework] and [delete_homework] answer a response whose
    status is not a success, 401 included, by raising at once with the
    body of the response: nothing follows the response in the trace, so
    there is no refresh and no second request, and the handler is not
    called, configured or not. *)
Theorem writes_raise_without_retry (s : State) (resp : Response) :
  initialized (self s) = true ->
  (status_code resp = 401 -> ok resp = false) /\
  (forall homework_id answer_text file hours minutes,
     first_reply (events_of world py_str
                    (CUpload homework_id answer_text file hours minutes) s)
       = Some (Responded resp) ->
     ok resp = false ->
     run_result (upload_homework world py_str homework_id answer_text file hours minutes s)
       = Raise (match json resp with
                | Some payload => Exception (ArgJson payload)
                | None => JSONDecodeError (text resp)
                end) /\
     after_send (events_of world py_str
                   (CUpload homework_id answer_text file hours minutes) s) = [] /\
     requests_sent (events_of world py_str
                      (CUpload homework_id answer_text file hours minutes) s) = 1%nat /\
     callbacks (events_of world py_str
                  (CUpload homework_id answer_text file hours minutes) s) = 0%nat /\
     forced_refreshes (events_of world py_str
                         (CUpload homework_id answer_text file hours minutes) s) = 0%nat) /\
  (forall homework_id,
     first_reply (events_of world py_str (CDelete homework_id) s)
       = Some (Responded resp) ->
     ok resp = false ->
     run_result (delete_homework world homework_id s)
       = Raise (Exception (ArgStr (text resp))) /\
     after_send (events_of world py_str (CDelete homework_id) s) = [] /\
     requests_sent (events_of world py_str (CDelete homework_id) s) = 1%nat /\
     callbacks (events_of world py_str (CDelete homework_id) s) = 0%nat /\
     forced_refreshes (events_of world py_str (CDelete homework_id) s) = 0%nat).
Proof.
  intros Hinit. split; [apply status_401_not_ok|]. split.
  - intros homework_id answer_text file hours minutes.
    open_client s Hinit. exec.
    all: read_trace.
    all: intros Hf Hok; try discriminate Hf.
    all: injection Hf as ->.
    all: try (rewrite Hok in *; discriminate).
    all: repeat split.
    all: congruence.
  - intros homework_id.
    open_client s Hinit. exec.
    all: read_trace.
    all: intros Hf Hok; try discriminate Hf.
    all: injection Hf as ->.
    all: try (rewrite Hok in *; discriminate).
    all: repeat split.
Qed.

End Properties.


(** * More properties *)

(** ** Decoding records *)

Lemma assoc_constructed (f : string) (members : list (string * Json)) (fs : list string) :
  In f fs -> assoc f (map (fun f => (f, value_of f members)) fs) = Some (value_of f members).
Proof.
  induction fs as [|g fs IH]; cbn; [contradiction|].
  intros [-> | Hin].
  - rewrite String.eqb_refl. reflexivity.
  - destruct (String.eqb_spec g f) as [-> | _]; [reflexivity | apply IH; exact Hin].
Qed.

Lemma assoc_constructed_none (f : string) (members : list (string * Json)) (fs : list string) :
  ~ In f fs -> assoc f (map (fun f => (f, value_of f members)) fs) = None.
Proof.
  induction fs as [|g fs IH]; cbn; [reflexivity|].
  intros Hnot. destruct (String.eqb_spec g f) as [-> | _].
  - exfalso. apply Hnot. left. reflexivity.
  - apply IH. intros Hin. apply Hnot. right. exact Hin.
Qed.

Lemma accepts_has_all (c : Dataclass) (members : list (string * Json)) (f : string) :
  accepts c members = true -> In f (fields_of c) ->
  assoc f members = Some (value_of f members).
Proof.
  unfold accepts. intros H Hin. apply andb_prop in H. destruct H as [_ H].
  rewrite forallb_forall in H. specialize (H f Hin).
  unfold has_key, value_of in *. destruct (assoc f members); [reflexivity | discriminate].
Qed.

(** What the constructor builds has the attributes of the class, each with
    the value the entry gives it, and no other. *)
Lemma construct_attributes (c : Dataclass) (entry : Json) (i : Instance) :
  construct c entry = Ok i ->
  exists members,
    entry = JObj members /\ accepts c members = true /\ class_of i = c /\
    map fst (attributes i) = fields_of c /\
    (forall f, In f (fields_of c) -> getattr i f = assoc f members) /\
    (forall f, ~ In f (fields_of c) -> getattr i f = None).
Proof.
  unfold construct. destruct entry; try discriminate.
  destruct (accepts c members) eqn:Hacc; [|discriminate].
  intros H. injection H as <-. exists members. cbn.
  split; [reflexivity|]. split; [exact Hacc|]. split; [reflexivity|]. split.
  - rewrite map_map. cbn. apply map_id.
  - split; intros f Hf; unfold getattr; cbn.
    + rewrite assoc_constructed by exact Hf. symmetry.
      apply accepts_has_all with (c := c); assumption.
    + apply assoc_constructed_none. exact Hf.
Qed.

Lemma construct_raises_type_error (c : Dataclass) (entry : Json) (e : Exc) :
  construct c entry = Raise e -> exists what, e = TypeError what.
Proof.
  unfold construct. destruct entry; try (intros H; injection H as <-; eexists; reflexivity).
  destruct (accepts c members); [discriminate|].
  intros H; injection H as <-; eexists; reflexivity.
Qed.

Lemma construct_ok_iff (c : Dataclass) (entry : Json) :
  (exists i, construct c entry = Ok i) <-> well_formed c entry.
Proof.
  unfold well_formed, construct. split.
  - intros [i H]. destruct entry; try discriminate.
    destruct (accepts c members) eqn:Hacc; [|discriminate].
    exists members. auto.
  - intros (members & -> & ->). eexists. reflexivity.
Qed.

(** The comprehension over an array keeps the length and the order: the
    n-th record is built from the n-th item. *)
Theorem decode_list_in_order (c : Dataclass) (items : list Json) (recs : list Instance) :
  decode_list c (JArr items) = Ok recs ->
  length recs = length items /\
  forall n item,
    nth_error items n = Some item ->
    exists members r,
      item = JObj members /\
      nth_error recs n = Some r /\
      class_of r = c /\
      map fst (attributes r) = fields_of c /\
      forall f, In f (fields_of c) -> getattr r f = assoc f members.
Proof.
  unfold decode_list. cbn [iterate]. revert recs.
  induction items as [|item items IH]; cbn [construct_all]; intros recs H.
  - injection H as <-. split; [reflexivity|]. intros [|n] it Hn; discriminate.
  - destruct (construct c item) as [i|e] eqn:Hi; [|discriminate].
    destruct (construct_all c items) as [more|e] eqn:Hmore; [|discriminate].
    injection H as <-. destruct (IH more eq_refl) as [Hlen Hnth].
    split; [cbn; rewrite Hlen; reflexivity|].
    intros [|n] it Hn; cbn in Hn.
    + injection Hn as <-.
      destruct (construct_attributes c item i Hi) as (members & -> & _ & Hc & Hk & Hv & _).
      exists members, i. auto.
    + apply Hnth. exact Hn.
Qed.

Lemma construct_all_ok_iff (c : Dataclass) (items : list Json) :
  (exists recs, construct_all c items = Ok recs) <-> Forall (well_formed c) items.
Proof.
  induction items as [|item items IH]; cbn [construct_all].
  - split; [constructor | intros _; eexists; reflexivity].
  - split.
    + intros [recs H].
      destruct (construct c item) as [i|e] eqn:Hi; [|discriminate].
      destruct (construct_all c items) as [more|e] eqn:Hmore; [|discriminate].
      constructor.
      * apply construct_ok_iff. exists i. exact Hi.
      * apply IH. exists more. reflexivity.
    + intros H. inversion H as [|x l Hx Hl]; subst.
      apply construct_ok_iff in Hx. destruct Hx as [i ->].
      apply IH in Hl. destruct Hl as [more ->]. eexists. reflexivity.
Qed.

Lemma construct_all_raises_type_error (c : Dataclass) (items : list Json) (e : Exc) :
  construct_all c items = Raise e -> exists what, e = TypeError what.
Proof.
  induction items as [|item items IH]; cbn [construct_all]; [discriminate|].
  destruct (construct c item) as [i|e'] eqn:Hi.
  - destruct (construct_all c items) as [more|e'']; [discriminate|].
    intros H. injection H as <-. apply IH. reflexivity.
  - intros H. injection H as <-. exact (construct_raises_type_error c item e' Hi).
Qed.

(** The comprehension gives all the records or none: it returns exactly
    when the response is an array whose items the constructor all accepts,
    or an empty object or string, which iterate to nothing; in every other
    case it raises [TypeError], and nothing else. *)
Theorem decode_list_all_or_nothing (c : Dataclass) (response : Json) :
  ((exists recs, decode_list c response = Ok recs) <->
   (exists items, response = JArr items /\ Forall (well_formed c) items) \/
   response = JObj [] \/ response = JStr "") /\
  (forall e, decode_list c response = Raise e -> exists what, e = TypeError what) /\
  (response = JObj [] \/ response = JStr "" -> decode_list c response = Ok []).
Proof.
  split; [|split].
  - split.
    + intros [recs H]. unfold decode_list in H.
      destruct response; cbn [iterate] in H; try discriminate.
      * right. right. destruct s as [|ch s]; [reflexivity|]. cbn in H. discriminate.
      * left. exists items. split; [reflexivity|].
        apply construct_all_ok_iff. exists recs. exact H.
      * right. left. destruct members as [|[k v] members]; [reflexivity|].
        cbn in H. discriminate.
    + intros [(items & -> & Hall) | [-> | ->]].
      * apply construct_all_ok_iff in Hall. exact Hall.
      * exists []. reflexivity.
      * exists []. reflexivity.
  - intros e. unfold decode_list.
    destruct (iterate response) as [items|e'] eqn:Hit.
    + apply construct_all_raises_type_error.
    + intros H. injection H as <-.
      destruct response; cbn in Hit; try discriminate;
        injection Hit as <-; eexists; reflexivity.
  - intros [-> | ->]; reflexivity.
Qed.

(** ** Dates *)

Lemma digit_inj (a b : Z) : digit a = digit b -> a mod 10 = b mod 10.
Proof.
  unfold digit. intros H.
  assert (Ha : 0 <= a mod 10 < 10) by (apply Z.mod_pos_bound; lia).
  assert (Hb : 0 <= b mod 10 < 10) by (apply Z.mod_pos_bound; lia).
  apply (f_equal Ascii.nat_of_ascii) in H.
  rewrite !Ascii.nat_ascii_embedding in H by lia.
  lia.
Qed.

(** On the dates from the year 1000 on, [format_date] writes ten
    characters, with a dash after the year and one after the month, and two
    dates that are written alike are the same date. *)
Theorem format_date_injective (d d' : date) :
  plain_date d -> plain_date d' ->
  String.length (format_date d) = 10%nat /\
  String.get 4 (format_date d) = String.get 0 "-" /\
  String.get 7 (format_date d) = String.get 0 "-" /\
  (format_date d = format_date d' -> d = d').
Proof.
  intros (Hy & Hm & Hd) (Hy' & Hm' & Hd').
  split; [reflexivity|]. split; [reflexivity|]. split; [reflexivity|].
  destruct d as [y m dd], d' as [y' m' dd'].
  cbn [year month day] in *.
  unfold format_date, four_digits, two_digits.
  cbn [String.append year month day].
  intros H. injection H as H1 H2 H3 H4 H5 H6 H7 H8.
  apply digit_inj in H1, H2, H3, H4, H5, H6, H7, H8.
  assert (y = y') by (clear H5 H6 H7 H8; Z.div_mod_to_equations; lia).
  assert (m = m') by (clear H1 H2 H3 H4 H7 H8; Z.div_mod_to_equations; lia).
  assert (dd = dd') by (clear H1 H2 H3 H4 H5 H6; Z.div_mod_to_equations; lia).
  subst. reflexivity.
Qed.

Example format_date_example : format_date (mkDate 2024 3 9) = "2024-03-09".
Proof. reflexivity. Qed.

(** ** Frames and bounds, by composition *)

Section Frames.

Variable world : World.
Variable R : ClientData.t -> ClientData.t -> Prop.
Hypothesis R_refl : forall d, R d d.
Hypothesis R_trans : forall d1 d2 d3, R d1 d2 -> R d2 d3 -> R d1 d3.
Hypothesis R_refreshed : forall user d, R d (refreshed user d).

Lemma frames_same {A} (m : M A) :
  (forall s, self (snd (m s)) = self s) -> frames R m.
Proof.
  intros H s. rewrite H. split; [reflexivity|].
  destruct (client_data (self s)); [apply R_refl | exact I].
Qed.

Lemma frames_bind {A B} (m : M A) (k : A -> M B) :
  frames R m -> (forall a, frames R (k a)) -> frames R (bind m k).
Proof.
  intros Hm Hk s. unfold bind. specialize (Hm s).
  destruct (m s) as [[a|e] s1]; cbn [fst snd] in *; [|exact Hm].
  specialize (Hk a s1). destruct Hm as [Hc1 Hd1], Hk as [Hc2 Hd2].
  split; [congruence|].
  destruct (client_data (self s)), (client_data (self s1)),
    (client_data (self (snd (k a s1)))); try contradiction; try exact I.
  eapply R_trans; eassumption.
Qed.

Lemma frames_ret {A} (a : A) : frames R (ret a).
Proof. apply frames_same. reflexivity. Qed.

Lemma frames_raise {A} (e : Exc) : frames R (@raise A e).
Proof. apply frames_same. reflexivity. Qed.

Lemma frames_lift {A} (r : Result A) : frames R (lift r).
Proof. apply frames_same. reflexivity. Qed.

Lemma frames_get_config : frames R get_config.
Proof. apply frames_same. reflexivity. Qed.

Lemma frames_get_client_data : frames R get_client_data.
Proof. apply frames_same. reflexivity. Qed.

Lemma frames_next_tick : frames R next_tick.
Proof. apply frames_same. reflexivity. Qed.

Lemma frames_emit (e : Event) : frames R (emit e).
Proof. apply frames_same. reflexivity. Qed.

Lemma frames_update_token : frames R (update_token world).
Proof.
  intros s. rewrite update_token_run.
  destruct (login_at world s); cbn [fst snd with_session after_event self config client_data].
  - split; [reflexivity|]. destruct (client_data (self s)); cbn; [apply R_refreshed | exact I].
  - split; [reflexivity|]. destruct (client_data (self s)); [apply R_refl | exact I].
  - split; [reflexivity|]. destruct (client_data (self s)); [apply R_refl | exact I].
Qed.

Create HintDb frame.
Hint Resolve frames_ret frames_raise frames_lift frames_get_config frames_get_client_data
  frames_next_tick frames_emit frames_update_token : frame.

Ltac frames_steps :=
  repeat first
    [ progress intros
    | solve [auto with frame]
    | apply frames_bind
    | case_step ].

Lemma frames_ensure_session : frames R (ensure_session world).
Proof. unfold ensure_session, is_token_expired, read_clock. frames_steps. Qed.

Lemma frames_the_client_data : frames R the_client_data.
Proof. unfold the_client_data. frames_steps. Qed.

Lemma frames_send (req : Request) : frames R (send world req).
Proof. unfold send. frames_steps. Qed.

Hint Resolve frames_ensure_session frames_the_client_data frames_send : frame.

Lemma frames_get_with (recur : string -> bool -> M Json) (path : string) (retry : bool) :
  (forall p r, frames R (recur p r)) -> frames R (get_with world recur path retry).
Proof. intros Hrec. unfold get_with, call_handler, response_json. frames_steps. Qed.

Lemma frames_get (path : string) (retry : bool) : frames R (get world path retry).
Proof.
  unfold get. apply frames_get_with. intros p r.
  apply frames_get_with. intros; apply frames_raise.
Qed.

Hint Resolve frames_get : frame.

Lemma frames_read_accessor {A} (decode : Json -> Result A) (path : string) :
  frames R (read_accessor world decode path).
Proof. unfold read_accessor. frames_steps. Qed.

Lemma frames_upload_homework (py_str : Json -> string) (homework_id : Z)
    (answer_text : option string) (file : option FileArg) (hours minutes : Z) :
  frames R (upload_homework world py_str homework_id answer_text file hours minutes).
Proof. unfold upload_homework, open_file, response_json. frames_steps. Qed.

Lemma frames_delete_homework (homework_id : Z + string) :
  frames R (delete_homework world homework_id).
Proof. unfold delete_homework. frames_steps. Qed.

End Frames.

Lemma same_profile_refl (d : ClientData.t) : same_profile d d.
Proof. repeat split. Qed.

Lemma same_profile_trans (d1 d2 d3 : ClientData.t) :
  same_profile d1 d2 -> same_profile d2 d3 -> same_profile d1 d3.
Proof. unfold same_profile. intuition congruence. Qed.

Lemma same_profile_refreshed (user : AuthResponse.t) (d : ClientData.t) :
  same_profile d (refreshed user d).
Proof. repeat split. Qed.

Lemma same_identity_refl (d : ClientData.t) : same_identity d d.
Proof. repeat split. Qed.

Lemma same_identity_trans (d1 d2 d3 : ClientData.t) :
  same_identity d1 d2 -> same_identity d2 d3 -> same_identity d1 d3.
Proof. unfold same_identity. intuition congruence. Qed.

Lemma same_identity_refreshed (user : AuthResponse.t) (d : ClientData.t) :
  same_identity d (refreshed user d).
Proof. repeat split. Qed.

Lemma same_profile_identity (d d' : ClientData.t) : same_profile d d' -> same_identity d d'.
Proof. unfold same_profile, same_identity. tauto. Qed.

Lemma frames_weaken {A} (m : M A) : frames same_profile m -> frames same_identity m.
Proof.
  intros H s. destruct (H s) as [Hc Hd]. split; [exact Hc|].
  destruct (client_data (self s)), (client_data (self (snd (m s)))); auto.
  apply same_profile_identity. exact Hd.
Qed.

Ltac frame_rel :=
  first [ exact same_identity_refl | exact same_identity_trans
        | exact same_identity_refreshed | exact same_profile_refl
        | exact same_profile_trans | exact same_profile_refreshed ].

Section More.

Variable world : World.
Variable py_str : Json -> string.
Variable date_of_ms : Q -> date.

Lemma frames_profile_get (path : string) (retry : bool) :
  frames same_profile (get world path retry).
Proof.
  apply frames_get; frame_rel.
Qed.

Lemma frames_identity_get (path : string) (retry : bool) :
  frames same_identity (get world path retry).
Proof. apply frames_weaken, frames_profile_get. Qed.

(** [self.client_data.group_id = v] *)
Lemma frames_store_group_id (v : Json) :
  frames same_identity
    (d <- the_client_data ;; set_client_data (Some (ClientData.set_group_id v d))).
Proof.
  intros [[cfg cd] k tr]. unfold the_client_data. unfold_monad.
  destruct cd as [d|]; cbn; split; auto. repeat split.
Qed.

Lemma frames_resolve_group_id : frames same_identity (resolve_group_id world).
Proof.
  unfold resolve_group_id, get_user_info.
  apply frames_bind; [apply same_identity_trans | |].
  - apply frames_get_client_data; frame_rel.
  - intros cd.
    match goal with |- frames _ (if ?b then _ else _) => destruct b end.
    + apply frames_bind; [apply same_identity_trans | apply frames_identity_get |].
      intros user_info. case_step.
      * apply frames_raise; frame_rel.
      * apply frames_bind; [apply same_identity_trans | |].
        -- unfold subscript. repeat case_step; first
             [(apply frames_ret; frame_rel) | (apply frames_raise; frame_rel)].
        -- intros v. apply frames_store_group_id.
    + apply frames_ret; frame_rel.
Qed.

Lemma frames_identity_call (c : Call) : frames same_identity (run_call world py_str c).
Proof.
  assert (Hget : forall p r, frames same_identity (get world p r))
    by apply frames_identity_get.
  destruct c; cbn [run_call]; try apply Hget.
  - apply frames_read_accessor; frame_rel.
  - unfold get_homework_by_type.
    apply frames_bind; [apply same_identity_trans | apply frames_resolve_group_id |].
    intros _. apply frames_bind; [apply same_identity_trans | |].
    + apply frames_the_client_data; frame_rel.
    + intros d. apply Hget.
  - unfold get_homework_list.
    apply frames_bind; [apply same_identity_trans | apply frames_resolve_group_id |].
    intros _. apply frames_bind; [apply same_identity_trans | |].
    + apply frames_the_client_data; frame_rel.
    + intros d. apply Hget.
  - apply frames_upload_homework; frame_rel.
  - apply frames_bind; [apply same_identity_trans | |].
    + apply frames_delete_homework; frame_rel.
    + intros b. apply frames_ret; frame_rel.
Qed.

Lemma frames_profile_call (c : Call) :
  is_homework_call c = false -> frames same_profile (run_call world py_str c).
Proof.
  assert (Hget : forall p r, frames same_profile (get world p r))
    by apply frames_profile_get.
  destruct c; cbn [run_call is_homework_call]; intros Hc; try discriminate Hc;
    try apply Hget.
  - apply frames_read_accessor; frame_rel.
  - apply frames_upload_homework; frame_rel.
  - apply frames_bind; [apply same_profile_trans | |].
    + apply frames_delete_homework; frame_rel.
    + intros b. apply frames_ret; frame_rel.
Qed.

(** No authenticated call touches the configuration, creates a session or
    drops one; in a session it changes at most the token, the expiry and the
    group id, and only the two homework accessors change the group id. *)
Theorem calls_change_only_token_and_group_id (c : Call) (s : State) :
  config (self (run_state (run_call world py_str c s))) = config (self s) /\
  (client_data (self s) = None ->
   client_data (self (run_state (run_call world py_str c s))) = None) /\
  (forall d,
     client_data (self s) = Some d ->
     exists d',
       client_data (self (run_state (run_call world py_str c s))) = Some d' /\
       ClientData.login_data d' = ClientData.login_data d /\
       ClientData.language d' = ClientData.language d /\
       ClientData.cache d' = ClientData.cache d /\
       (is_homework_call c = false -> ClientData.group_id d' = ClientData.group_id d)).
Proof.
  destruct (frames_identity_call c s) as [Hcfg Hid]. unfold run_state.
  split; [exact Hcfg|]. split.
  - intros Hnone. rewrite Hnone in Hid.
    destruct (client_data (self (snd (run_call world py_str c s)))); [contradiction | reflexivity].
  - intros d Hd. rewrite Hd in Hid.
    destruct (client_data (self (snd (run_call world py_str c s)))) as [d'|] eqn:Hd';
      [|contradiction].
    exists d'. destruct Hid as (H1 & H2 & H3).
    repeat split; auto.
    intros Hc. destruct (frames_profile_call c Hc s) as [_ Hp].
    rewrite Hd, Hd' in Hp. apply Hp.
Qed.

(** ** Logging in and refreshing *)

(** [initialize] logs in exactly when the configuration does not bring both
    a non-empty token and a non-zero expiry, and never sends anything else.
    When it adopts the token of the configuration it touches neither the
    provider nor the clock, and the session it builds is a copy of the
    configuration: the language is taken as it is, even empty, where the
    login path would put "en". *)
Theorem initialize_adopts_given_token (s : State) :
  refreshes (new_events s (run_state (initialize world s)))
    = (if token_given (config (self s)) then 0 else 1)%nat /\
  requests_sent (new_events s (run_state (initialize world s))) = 0%nat /\
  config (self (run_state (initialize world s))) = config (self s) /\
  (ClientConfig.token_expires_at (config (self s)) = Some 0 ->
   token_given (config (self s)) = false) /\
  (ClientConfig.access_token (config (self s)) = Some "" ->
   token_given (config (self s)) = false) /\
  (token_given (config (self s)) = true ->
   run_result (initialize world s) = Ok tt /\
   new_events s (run_state (initialize world s)) = [] /\
   initialized (self (run_state (initialize world s))) = true /\
   token_of (self (run_state (initialize world s)))
     = ClientConfig.access_token (config (self s)) /\
   exists d,
     client_data (self (run_state (initialize world s))) = Some d /\
     ClientData.token_expires_at d = ClientConfig.token_expires_at (config (self s)) /\
     ClientData.language d = ClientConfig.language (config (self s)) /\
     ClientData.group_id d = of_optional_int (ClientConfig.group_id (config (self s)))) /\
  (forall user,
     token_given (config (self s)) = false ->
     login_at world s = ReplyObject user ->
     ClientConfig.language (config (self s)) = "" ->
     exists d,
       client_data (self (run_state (initialize world s))) = Some d /\
       ClientData.language d = "en").
Proof.
  destruct s as [[cfg cd] k tr]. cbn [self config].
  destruct (token_given cfg) eqn:Hgiven.
  - assert (Hrun : initialize world (mkState (mkClient cfg cd) k tr) =
                   (Ok tt, mkState (mkClient cfg (Some (ClientData.mk
                      (ClientConfig.login_data cfg) (ClientConfig.language cfg)
                      (ClientConfig.cache cfg) (ClientConfig.access_token cfg)
                      (ClientConfig.token_expires_at cfg)
                      (of_optional_int (ClientConfig.group_id cfg))))) k tr)).
    { unfold initialize. unfold_monad. cbn. unfold token_given in Hgiven.
      rewrite Hgiven. reflexivity. }
    rewrite Hrun. unfold run_result, run_state. cbn [fst snd].
    rewrite (new_events_app _ _ [])
      by (cbn [trace]; symmetry; apply app_nil_r).
    unfold token_given in Hgiven. apply andb_prop in Hgiven. destruct Hgiven as [Ht He].
    split; [reflexivity|]. split; [reflexivity|]. split; [reflexivity|].
    split; [intros H0; rewrite H0 in He; discriminate|].
    split; [intros H0; rewrite H0 in Ht; discriminate|].
    split; [|intros; discriminate].
    intros _. split; [reflexivity|]. split; [reflexivity|]. split.
    + unfold initialized, populated. cbn.
      destruct (ClientConfig.access_token cfg); [|discriminate].
      destruct (ClientConfig.token_expires_at cfg); [reflexivity|discriminate].
    + split; [reflexivity|]. eexists. split; [reflexivity|]. repeat split.
  - rewrite (initialize_login_run world (mkState (mkClient cfg cd) k tr) Hgiven).
    unfold login_event, login_at, after_event. cbn [self config tick trace].
    split.
    { destruct (login_reply world k _); unfold run_state; cbn [snd];
        erewrite new_events_app by reflexivity; reflexivity. }
    split.
    { destruct (login_reply world k _); unfold run_state; cbn [snd];
        erewrite new_events_app by reflexivity; reflexivity. }
    split; [destruct (login_reply world k _); reflexivity|].
    split; [reflexivity|]. split; [reflexivity|]. split; [discriminate|].
    intros user _ Hlogin Hlang. unfold login_at in Hlogin. cbn in Hlogin.
    rewrite Hlogin. eexists. split; [reflexivity|]. cbn. rewrite Hlang. reflexivity.
Qed.

(** [update_token] never creates a session: on a client that has none it
    still logs in, and returns normally when the provider accepts, but the
    client stays without a session and its next call raises "Client not
    initialized". *)
Theorem update_token_creates_no_session (s : State) :
  client_data (self s) = None ->
  client_data (self (run_state (update_token world s))) = None /\
  refreshes (new_events s (run_state (update_token world s))) = 1%nat /\
  (forall user, login_at world s = ReplyObject user ->
                run_result (update_token world s) = Ok tt) /\
  forall c, run_result (run_call world py_str c (run_state (update_token world s)))
            = Raise UninitializedClientError.
Proof.
  intros Hnone. rewrite update_token_run.
  assert (Hcd : client_data (self (run_state
                  match login_at world s with
                  | ReplyObject user =>
                      (Ok tt, with_session (refreshed user) (after_event (login_event world s) s))
                  | ReplyArray errs =>
                      (Raise (AuthenticationError errs), after_event (login_event world s) s)
                  | ReplyRaises e => (Raise e, after_event (login_event world s) s)
                  end)) = None).
  { destruct (login_at world s); cbn; rewrite ?Hnone; reflexivity. }
  split; [exact Hcd|]. split.
  - destruct (login_at world s); unfold run_state; cbn [snd];
      erewrite new_events_app by reflexivity; reflexivity.
  - split.
    + intros user ->. reflexivity.
    + intros c. unfold run_result. rewrite (call_absent world py_str c _ Hcd). reflexivity.
Qed.

(** *** A refresh that fails *)

Lemma ensure_session_blocked (s : State) (e : Exc) :
  initialized (self s) = true ->
  expired_at (now_ms world (tick s)) (self s) = true ->
  login_failure [login_event world (after_event (EvClock (now_ms world (tick s))) s)] = Some e ->
  ensure_session world s =
  (Raise e,
   after_event (login_event world (after_event (EvClock (now_ms world (tick s))) s))
     (after_event (EvClock (now_ms world (tick s))) s)).
Proof.
  intros Hinit Hexp Hfail.
  rewrite (ensure_session_run world s (initialized_session_ok _ Hinit)).
  unfold initialized in Hinit.
  destruct (client_data (self s)); [|discriminate].
  rewrite Hexp, update_token_run.
  unfold login_event in Hfail. cbn [login_failure] in Hfail.
  destruct (login_at world _); [discriminate | |]; injection Hfail as <-; reflexivity.
Qed.

Lemma get_blocked (path : string) (retry : bool) (s s1 : State) (e : Exc) :
  ensure_session world s = (Raise e, s1) -> get world path retry s = (Raise e, s1).
Proof.
  intros H. unfold get, get_with. unfold bind at 1. rewrite H. reflexivity.
Qed.

Lemma call_blocked (c : Call) (s s1 : State) (e : Exc) :
  client_data (self s) <> None ->
  ensure_session world s = (Raise e, s1) -> run_call world py_str c s = (Raise e, s1).
Proof.
  intros Hcd H.
  assert (Hget : forall p r, get world p r s = (Raise e, s1))
    by (intros; apply get_blocked; exact H).
  destruct (client_data (self s)) as [d|] eqn:Hd; [clear Hcd | congruence].
  destruct c; cbn [run_call]; try apply Hget.
  - unfold read_accessor, bind. rewrite Hget. reflexivity.
  - unfold get_homework_by_type. unfold bind at 1.
    rewrite (resolve_group_id_run world s d Hd).
    destruct (truthy (ClientData.group_id d)).
    + unfold the_client_data. unfold_monad. rewrite Hd, Hget. reflexivity.
    + unfold get_user_info, bind. rewrite Hget. reflexivity.
  - unfold get_homework_list. unfold bind at 1.
    rewrite (resolve_group_id_run world s d Hd).
    destruct (truthy (ClientData.group_id d)).
    + unfold the_client_data. unfold_monad. rewrite Hd, Hget. reflexivity.
    + unfold get_user_info, bind. rewrite Hget. reflexivity.
  - unfold upload_homework. unfold bind at 1. rewrite H. reflexivity.
  - unfold delete_homework. unfold bind at 1 2. rewrite H. reflexivity.
Qed.

(** When the token has expired and the provider turns the refresh down, no
    authenticated call sends its request: the call raises what the login
    raised, after the clock read and the login and nothing else, and the
    client is left as it was, old token included. *)
Theorem failed_refresh_blocks_call (c : Call) (s : State) (e : Exc) :
  initialized (self s) = true ->
  expired_at (now_ms world (tick s)) (self s) = true ->
  login_failure [login_event world (after_event (EvClock (now_ms world (tick s))) s)] = Some e ->
  run_result (run_call world py_str c s) = Raise e /\
  events_of world py_str c s = session_events world s /\
  requests_sent (events_of world py_str c s) = 0%nat /\
  self (run_state (run_call world py_str c s)) = self s.
Proof.
  intros Hinit Hexp Hfail.
  assert (Hcd : client_data (self s) <> None).
  { unfold initialized in Hinit. destruct (client_data (self s)); [discriminate | discriminate]. }
  unfold events_of.
  rewrite (call_blocked c s _ e Hcd (ensure_session_blocked s e Hinit Hexp Hfail)).
  unfold run_result, run_state. cbn [fst snd].
  assert (Hev : new_events s
            (after_event (login_event world (after_event (EvClock (now_ms world (tick s))) s))
               (after_event (EvClock (now_ms world (tick s))) s)) = session_events world s).
  { apply new_events_app. unfold session_events. rewrite Hexp.
    cbn [after_event trace]. rewrite <- app_assoc. reflexivity. }
  rewrite Hev. split; [reflexivity|]. split; [reflexivity|]. split; [|reflexivity].
  unfold session_events. rewrite Hexp. reflexivity.
Qed.

(** ** What [get] sends and what it returns *)

(** [get] treats no status but 401 as a failure: whatever else the
    provider answers, a 404 or a 500 as well as a 200, the call returns the
    decoded body (and raises the decoding error when the body is not JSON),
    after one request, without calling the handler and without a forced
    refresh. *)
Theorem get_returns_body_of_any_status (s : State) (path : string) (retry : bool)
    (resp : Response) :
  initialized (self s) = true ->
  first_reply (get_events world path retry s) = Some (Responded resp) ->
  status_code resp <> 401 ->
  run_result (get world path retry s)
    = match json resp with
      | Some payload => Ok payload
      | None => Raise (JSONDecodeError (text resp))
      end /\
  requests_sent (get_events world path retry s) = 1%nat /\
  callbacks (get_events world path retry s) = 0%nat /\
  forced_refreshes (get_events world path retry s) = 0%nat.
Proof.
  intros Hinit. open_client s Hinit. exec.
  all: read_trace.
  all: intros Hf Hstatus; try discriminate Hf.
  all: injection Hf as ->.
  all: try (repeat match goal with H : (_ =? _) = true |- _ => apply Z.eqb_eq in H end;
            contradiction).
  all: repeat split; congruence.
Qed.

(** A request that the transport fails to deliver is not sent again: [get],
    [upload_homework] and [delete_homework] raise what the transport raised,
    and neither refresh nor call the handler after it. *)
Theorem transport_failure_is_not_retried (c : Call) (s : State) (e : Exc) :
  initialized (self s) = true ->
  is_homework_call c = false ->
  first_reply (events_of world py_str c s) = Some (Failed e) ->
  run_result (run_call world py_str c s) = Raise e /\
  requests_sent (events_of world py_str c s) = 1%nat /\
  after_send (events_of world py_str c s) = [] /\
  callbacks (events_of world py_str c s) = 0%nat.
Proof.
  intros Hinit Hc. open_client s Hinit.
  destruct c; try discriminate Hc; clear Hc.
  all: exec.
  all: read_trace.
  all: intros Hf; try discriminate Hf.
  all: injection Hf as ->.
  all: repeat split.
Qed.

(** When [get] returns, what it returns is the decoded body of the last
    response it received, unless that response was a 401 handed to the
    handler, in which case it returns [None]. *)
Theorem get_returns_last_body (s : State) (path : string) (retry : bool) (payload : Json) :
  initialized (self s) = true ->
  run_result (get world path retry s) = Ok payload ->
  exists resp,
    last_reply (get_events world path retry s) = Some (Responded resp) /\
    ((status_code resp <> 401 /\ json resp = Some payload) \/
     (status_code resp = 401 /\ payload = JNull /\
      ClientConfig.on_unauthorized (config (self s)) <> None /\
      callbacks (get_events world path retry s) = 1%nat)).
Proof.
  intros Hinit. open_client s Hinit. unfold last_reply. exec_run.
  all: read_trace.
  all: intros Hr; try discriminate Hr.
  all: injection Hr as <-.
  all: eexists; split; [reflexivity|].
  all: first
    [ left; split; [apply Z.eqb_neq; assumption | assumption]
    | right; split; [apply Z.eqb_eq; assumption|];
      split; [reflexivity|]; split; [congruence | reflexivity] ].
Qed.

(** A request never carries a token that the session check has found
    expired: the first request of a [get] bears the token of the refresh
    when there was one and the stored token otherwise, with the language of
    the session, and it is a body-less GET of the path under the base
    URL. *)
Theorem request_carries_current_token (s : State) (path : string) (retry : bool)
    (req : Request) :
  initialized (self s) = true ->
  first_request (get_events world path retry s) = Some req ->
  header "authorization" req
    = Some (bearer (match last_login (before_send (get_events world path retry s)) with
                    | Some user => Some (AuthResponse.access_token user)
                    | None => token_of (self s)
                    end)) /\
  (expired_at (now_ms world (tick s)) (self s) = true ->
   last_login (before_send (get_events world path retry s)) <> None) /\
  (forall d, client_data (self s) = Some d ->
             header "x-language" req = Some (ClientData.language d)) /\
  header "accept" req = Some "application/json" /\
  method req = GET /\ url req = get_url path /\ body req = NoBody.
Proof.
  intros Hinit. open_client s Hinit. unfold last_login, expired_at. exec_run.
  all: read_trace.
  all: intros Hf; try discriminate Hf.
  all: injection Hf as <-.
  all: repeat split; try reflexivity; try (intros; congruence).
  all: intros d Hd; injection Hd as <-; reflexivity.
Qed.

(** A first 401 followed by another answer: the call returns the body of
    the second response, the retry bears the token of the last login of the
    call, and that is the token the session holds when the call returns. *)
Theorem retry_carries_fresh_token (s : State) (path : string) (r1 r2 : Response) :
  initialized (self s) = true ->
  ClientConfig.on_unauthorized (config (self s)) = None ->
  first_reply (get_events world path true s) = Some (Responded r1) ->
  status_code r1 = 401 ->
  first_reply (after_send (get_events world path true s)) = Some (Responded r2) ->
  status_code r2 <> 401 ->
  run_result (get world path true s)
    = match json r2 with
      | Some payload => Ok payload
      | None => Raise (JSONDecodeError (text r2))
      end /\
  exists user,
    last_login (get_events world path true s) = Some user /\
    token_of (self (run_state (get world path true s)))
      = Some (AuthResponse.access_token user) /\
    option_map (header "authorization")
      (first_request (after_send (get_events world path true s)))
      = Some (Some (bearer (Some (AuthResponse.access_token user)))).
Proof.
  intros Hinit Hh. open_client s Hinit.
  destruct cfg as [? ? ? ? ? ? c_h]. cbn in Hh. subst c_h.
  unfold last_login, token_of. exec_run.
  all: read_trace.
  all: intros Hf H401; try discriminate Hf.
  all: injection Hf as ->.
  all: try (rewrite H401 in *; discriminate).
  all: intros Hf2 Hn401; try discriminate Hf2.
  all: injection Hf2 as ->.
  all: try (repeat match goal with H : (_ =? _) = true |- _ => apply Z.eqb_eq in H end;
            contradiction).
  all: split; [congruence|].
  all: eexists; split; [reflexivity|]; split; reflexivity.
Qed.

(** ** Uploading *)

(** An attachment that cannot be opened stops [upload_homework] before
    anything is sent, though after the session check; and an empty answer
    text is left out of the form exactly as a missing one is. *)
Theorem upload_edges (s : State) (homework_id : Z) (answer_text : option string)
    (f : FileArg) (hours minutes : Z) :
  (initialized (self s) = true ->
   file_open f = None ->
   logins_accepted (session_events world s) = true ->
   run_result (upload_homework world py_str homework_id answer_text (Some f) hours minutes s)
     = Raise (OSError (file_name f)) /\
   events_of world py_str (CUpload homework_id answer_text (Some f) hours minutes) s
     = session_events world s) /\
  (forall file,
     upload_homework world py_str homework_id (Some "") file hours minutes s
     = upload_homework world py_str homework_id None file hours minutes s).
Proof.
  split; [|reflexivity].
  intros Hinit. open_client s Hinit.
  unfold session_events, login_event, login_at, expired_at. exec.
  all: read_trace.
  all: intros Hopen Hacc; try discriminate Hacc; try discriminate Hopen.
  all: split; reflexivity.
Qed.

(** ** The group id of the homework accessors *)

Lemma homework_by_type_known (s : State) (d : ClientData.t) (page : Z)
    (homework_type : HomeworkType) :
  client_data (self s) = Some d ->
  truthy (ClientData.group_id d) = true ->
  get_homework_by_type world py_str page homework_type s
  = get world (by_type_path py_str page homework_type (ClientData.group_id d)) true s.
Proof.
  intros Hd Hgid. unfold get_homework_by_type. unfold bind at 1.
  rewrite (resolve_group_id_run world s d Hd), Hgid.
  unfold the_client_data. unfold_monad. rewrite Hd. reflexivity.
Qed.

Lemma homework_list_known (s : State) (d : ClientData.t) (page : Z)
    (status : HomeworkStatus) (homework_type : HomeworkType) :
  client_data (self s) = Some d ->
  truthy (ClientData.group_id d) = true ->
  get_homework_list world py_str page status homework_type s
  = get world (by_status_path py_str page status homework_type (ClientData.group_id d)) true s.
Proof.
  intros Hd Hgid. unfold get_homework_list. unfold bind at 1.
  rewrite (resolve_group_id_run world s d Hd), Hgid.
  unfold the_client_data. unfold_monad. rewrite Hd. reflexivity.
Qed.

(** What the resolution does when the profile comes back. *)
Lemma resolve_group_id_fetch (s s1 : State) (d : ClientData.t) (user_info : Json) :
  client_data (self s) = Some d ->
  truthy (ClientData.group_id d) = false ->
  get_user_info world s = (Ok user_info, s1) ->
  resolve_group_id world s =
  if truthy user_info then
    match user_info with
    | JObj members =>
        match assoc "current_group_id" members with
        | Some v => (Ok tt, with_group_id v s1)
        | None => (Raise (KeyError "current_group_id"), s1)
        end
    | _ => (Raise (TypeError "object is not subscriptable by str"), s1)
    end
  else (Raise GroupIdError, s1).
Proof.
  intros Hd Hgid Hu.
  rewrite (resolve_group_id_run world s d Hd), Hgid. unfold bind at 1. rewrite Hu.
  destruct (truthy user_info); [|reflexivity]. cbn [negb].
  destruct (frames_profile_get "settings/user-info" true s) as [_ Hframe].
  unfold get_user_info in Hu. rewrite Hu, Hd in Hframe. cbn [snd] in Hframe.
  destruct (client_data (self s1)) as [d1|] eqn:Hd1; [|contradiction].
  unfold subscript, the_client_data, with_group_id, with_session. unfold_monad.
  destruct user_info; try reflexivity.
  destruct (assoc "current_group_id" members); [|reflexivity].
  cbn. rewrite Hd1. reflexivity.
Qed.

(** A group id that the session already holds is used as it is: the call is
    one [get] of the list and the profile is not asked for.  Otherwise the
    call first gets the profile; when it returns, the profile was an object
    with a [current_group_id], that value is what the session holds from
    then on, and if it is truthy the homework calls that follow use it
    without asking again. *)
Theorem group_id_is_resolved_once (s : State) (d : ClientData.t) (page : Z)
    (homework_type : HomeworkType) :
  client_data (self s) = Some d ->
  (truthy (ClientData.group_id d) = true ->
   get_homework_by_type world py_str page homework_type s
   = get world (by_type_path py_str page homework_type (ClientData.group_id d)) true s) /\
  (forall payload,
     truthy (ClientData.group_id d) = false ->
     run_result (get_homework_by_type world py_str page homework_type s) = Ok payload ->
     exists members v s1,
       get_user_info world s = (Ok (JObj members), s1) /\
       assoc "current_group_id" members = Some v /\
       get_homework_by_type world py_str page homework_type s
       = get world (by_type_path py_str page homework_type v) true (with_group_id v s1) /\
       group_id_of (self (run_state (get_homework_by_type world py_str page homework_type s)))
       = v /\
       (truthy v = true ->
        forall page' homework_type',
          get_homework_by_type world py_str page' homework_type'
            (run_state (get_homework_by_type world py_str page homework_type s))
          = get world (by_type_path py_str page' homework_type' v) true
              (run_state (get_homework_by_type world py_str page homework_type s)))).
Proof.
  intros Hd. split; [apply homework_by_type_known; exact Hd|].
  intros payload Hgid Hrun.
  destruct (get_user_info world s) as [[user_info|e] s1] eqn:Hu.
  - pose proof (resolve_group_id_fetch s s1 d user_info Hd Hgid Hu) as Hres.
    assert (Hshape : exists members v,
               user_info = JObj members /\ assoc "current_group_id" members = Some v /\
               resolve_group_id world s = (Ok tt, with_group_id v s1)).
    { unfold get_homework_by_type, run_result in Hrun. unfold bind at 1 in Hrun.
      rewrite Hres in Hrun |- *.
      destruct (truthy user_info); [|discriminate Hrun].
      destruct user_info; try discriminate Hrun.
      destruct (assoc "current_group_id" members) as [v|] eqn:Hv; [|discriminate Hrun].
      exists members, v. auto. }
    destruct Hshape as (members & v & -> & Hv & Hresolved).
    destruct (frames_profile_get "settings/user-info" true s) as [_ Hframe].
    unfold get_user_info in Hu. rewrite Hu, Hd in Hframe. cbn [snd] in Hframe.
    destruct (client_data (self s1)) as [d1|] eqn:Hd1; [|contradiction].
    assert (Hcall : get_homework_by_type world py_str page homework_type s
                    = get world (by_type_path py_str page homework_type v) true
                        (with_group_id v s1)).
    { unfold get_homework_by_type. unfold bind at 1. rewrite Hresolved.
      unfold the_client_data, with_group_id, with_session. unfold_monad.
      cbn. rewrite Hd1. reflexivity. }
    exists members, v, s1. split; [reflexivity|]. split; [exact Hv|].
    split; [exact Hcall|].
    destruct (frames_profile_get (by_type_path py_str page homework_type v) true
                (with_group_id v s1)) as [_ Hframe2].
    assert (Hstored : client_data (self (with_group_id v s1))
                      = Some (ClientData.set_group_id v d1))
      by (unfold with_group_id, with_session; cbn; rewrite Hd1; reflexivity).
    rewrite Hstored in Hframe2.
    rewrite Hcall. unfold run_state.
    destruct (client_data (self (snd (get world (by_type_path py_str page homework_type v)
                                        true (with_group_id v s1))))) as [d2|] eqn:Hd2;
      [|contradiction].
    destruct Hframe2 as (_ & _ & _ & Hg). cbn in Hg.
    split.
    + unfold group_id_of. rewrite Hd2. exact Hg.
    + intros Htrue page' homework_type'.
      rewrite (homework_by_type_known _ d2 page' homework_type' Hd2); rewrite Hg;
        [reflexivity | exact Htrue].
  - exfalso. unfold get_homework_by_type, run_result in Hrun. unfold bind at 1 in Hrun.
    rewrite (resolve_group_id_run world s d Hd), Hgid in Hrun.
    unfold bind at 1 in Hrun. rewrite Hu in Hrun. discriminate Hrun.
Qed.

(** A profile that does not yield a group id stops the homework accessors
    before the list is asked for: a falsy profile raises "Unable to get user
    group id", an object without [current_group_id] raises [KeyError], any
    other value raises [TypeError]; the group id of the session stays as it
    was. *)
Theorem profile_without_group_id (s s1 : State) (d : ClientData.t) (page : Z)
    (homework_type : HomeworkType) (user_info : Json) :
  client_data (self s) = Some d ->
  truthy (ClientData.group_id d) = false ->
  get_user_info world s = (Ok user_info, s1) ->
  (forall members, user_info = JObj members -> members <> [] ->
                   assoc "current_group_id" members = None) ->
  get_homework_by_type world py_str page homework_type s
  = (Raise (if truthy user_info then
              match user_info with
              | JObj _ => KeyError "current_group_id"
              | _ => TypeError "object is not subscriptable by str"
              end
            else GroupIdError), s1) /\
  group_id_of (self s1) = ClientData.group_id d /\
  events_of world py_str (CHomeworkByType page homework_type) s
  = get_events world "settings/user-info" true s.
Proof.
  intros Hd Hgid Hu Hkey.
  assert (Hrun : get_homework_by_type world py_str page homework_type s
                 = (Raise (if truthy user_info then
                             match user_info with
                             | JObj _ => KeyError "current_group_id"
                             | _ => TypeError "object is not subscriptable by str"
                             end
                           else GroupIdError), s1)).
  { unfold get_homework_by_type. unfold bind at 1.
    rewrite (resolve_group_id_fetch s s1 d user_info Hd Hgid Hu).
    destruct (truthy user_info) eqn:Ht; [|reflexivity].
    destruct user_info; try reflexivity.
    destruct members as [|m members]; [discriminate Ht|].
    rewrite (Hkey _ eq_refl) by discriminate. reflexivity. }
  split; [exact Hrun|]. split.
  - destruct (frames_profile_get "settings/user-info" true s) as [_ Hframe].
    unfold get_user_info in Hu. rewrite Hu, Hd in Hframe. cbn [snd] in Hframe.
    unfold group_id_of.
    destruct (client_data (self s1)) as [d1|]; [|contradiction].
    apply Hframe.
  - unfold events_of, run_call, get_events. rewrite Hrun.
    unfold get_user_info in Hu. rewrite Hu. reflexivity.
Qed.

(** ** A 401 handed to the handler, seen from the accessors *)

Lemma get_handled (s : State) (path : string) (retry : bool) (h : Handler) (resp : Response) :
  initialized (self s) = true ->
  ClientConfig.on_unauthorized (config (self s)) = Some h ->
  first_reply (get_events world path retry s) = Some (Responded resp) ->
  status_code resp = 401 ->
  run_result (get world path retry s) = Ok JNull /\
  requests_sent (get_events world path retry s) = 1%nat /\
  callbacks (get_events world path retry s) = 1%nat.
Proof.
  intros Hinit Hh. open_client s Hinit.
  destruct cfg as [? ? ? ? ? ? c_h]. cbn in Hh. subst c_h.
  exec.
  all: read_trace.
  all: try discriminate.
  all: intros Hf; injection Hf as ->; intros H401.
  all: try (rewrite H401 in *; discriminate).
  all: repeat split.
Qed.

(** With a handler configured, a 401 on the profile request makes the
    homework accessors raise "Unable to get user group id": the handler is
    called, [get] returns [None], and the list is never asked for. *)
Theorem handled_401_fails_group_id (s : State) (d : ClientData.t) (page : Z)
    (homework_type : HomeworkType) (h : Handler) (resp : Response) :
  initialized (self s) = true ->
  client_data (self s) = Some d ->
  truthy (ClientData.group_id d) = false ->
  ClientConfig.on_unauthorized (config (self s)) = Some h ->
  first_reply (get_events world "settings/user-info" true s) = Some (Responded resp) ->
  status_code resp = 401 ->
  run_result (get_homework_by_type world py_str page homework_type s) = Raise GroupIdError /\
  events_of world py_str (CHomeworkByType page homework_type) s
    = get_events world "settings/user-info" true s /\
  requests_sent (events_of world py_str (CHomeworkByType page homework_type) s) = 1%nat /\
  callbacks (events_of world py_str (CHomeworkByType page homework_type) s) = 1%nat.
Proof.
  intros Hinit Hd Hgid Hh Hf H401.
  destruct (get_handled s "settings/user-info" true h resp Hinit Hh Hf H401)
    as (Hres & Hsent & Hcb).
  destruct (get_user_info world s) as [r s1] eqn:Hu.
  unfold get_user_info in Hu. unfold run_result in Hres. rewrite Hu in Hres.
  cbn [fst] in Hres. subst r.
  assert (Hrun : get_homework_by_type world py_str page homework_type s
                 = (Raise GroupIdError, s1)).
  { unfold get_homework_by_type. unfold bind at 1.
    rewrite (resolve_group_id_fetch s s1 d JNull Hd Hgid Hu). reflexivity. }
  unfold events_of, run_call. rewrite Hrun.
  unfold get_events in *. rewrite Hu in *. unfold run_result, run_state in *. cbn [fst snd] in *.
  auto.
Qed.

Ltac unfold_accessors :=
  unfold run_list, get_reviews, get_visits, get_attendance, get_latest_news,
    get_news_details, get_all_exams, get_future_exams, get_stream_leaders,
    get_group_leaders, get_activity, get_month_schedule, get_schedule_by_date,
    date_or_today, today in *.

(** With a handler configured, a 401 makes every accessor that builds
    records raise [TypeError], after the handler was called: the [None] that
    [get] returns is neither iterable nor a mapping. *)
Theorem handled_401_breaks_record_accessors (s : State) (h : Handler) (resp : Response) :
  initialized (self s) = true ->
  ClientConfig.on_unauthorized (config (self s)) = Some h ->
  status_code resp = 401 ->
  (forall a,
     first_reply (new_events s (run_state (run_list world date_of_ms a s)))
       = Some (Responded resp) ->
     (exists what, run_result (run_list world date_of_ms a s) = Raise (TypeError what)) /\
     callbacks (new_events s (run_state (run_list world date_of_ms a s))) = 1%nat /\
     requests_sent (new_events s (run_state (run_list world date_of_ms a s))) = 1%nat) /\
  (forall news_id,
     first_reply (new_events s (run_state (get_news_details world py_str news_id s)))
       = Some (Responded resp) ->
     (exists what,
        run_result (get_news_details world py_str news_id s) = Raise (TypeError what)) /\
     callbacks (new_events s (run_state (get_news_details world py_str news_id s))) = 1%nat).
Proof.
  intros Hinit Hh H401. open_client s Hinit.
  destruct cfg as [? ? ? ? ? ? c_h]. cbn in Hh. subst c_h.
  split.
  - intros a. destruct a as [| | | | | | | | | [dt|] | [dt|]]; unfold_accessors; exec.
    all: read_trace.
    all: intros Hf; try discriminate Hf.
    all: injection Hf as ->.
    all: try (rewrite H401 in *; discriminate).
    all: split; [eexists; reflexivity | split; reflexivity].
  - intros news_id. unfold_accessors. exec.
    all: read_trace.
    all: intros Hf; try discriminate Hf.
    all: injection Hf as ->.
    all: try (rewrite H401 in *; discriminate).
    all: split; [eexists; reflexivity | reflexivity].
Qed.

(** When an accessor that builds a list of records returns, the records are
    those of the decoded body of the last response it received, which was
    not a 401. *)
Theorem list_accessor_decodes_last_body (a : ListAccessor) (s : State)
    (recs : list Instance) :
  initialized (self s) = true ->
  run_result (run_list world date_of_ms a s) = Ok recs ->
  exists resp payload,
    last_reply (new_events s (run_state (run_list world date_of_ms a s)))
      = Some (Responded resp) /\
    status_code resp <> 401 /\
    json resp = Some payload /\
    decode_list (record_class a) payload = Ok recs.
Proof.
  intros Hinit. open_client s Hinit. unfold last_reply.
  destruct a as [| | | | | | | | | [dt|] | [dt|]]; unfold_accessors; exec_run.
  all: read_trace.
  all: intros Hr; try discriminate Hr.
  all: do 2 eexists; split; [reflexivity|].
  all: split; [apply Z.eqb_neq; assumption|].
  all: split; [eassumption | exact Hr].
Qed.

(** ** How much a call can send *)

Lemma bounded_weaken {A} (n l n' l' : nat) (m : M A) :
  (n <= n')%nat -> (l <= l')%nat -> bounded n l m -> bounded n' l' m.
Proof.
  intros Hn Hl H s. destruct (H s) as (evs & Ht & Hr & Hf).
  exists evs. split; [exact Ht|]. split; lia.
Qed.

Lemma requests_sent_app (a b : list Event) :
  requests_sent (a ++ b) = (requests_sent a + requests_sent b)%nat.
Proof. unfold requests_sent. rewrite filter_app, length_app. reflexivity. Qed.

Lemma refreshes_app (a b : list Event) :
  refreshes (a ++ b) = (refreshes a + refreshes b)%nat.
Proof. unfold refreshes. rewrite filter_app, length_app. reflexivity. Qed.

Lemma bounded_bind {A B} (n1 l1 n2 l2 : nat) (m : M A) (k : A -> M B) :
  bounded n1 l1 m -> (forall a, bounded n2 l2 (k a)) ->
  bounded (n1 + n2) (l1 + l2) (bind m k).
Proof.
  intros Hm Hk s. unfold bind. destruct (Hm s) as (evs1 & H1 & Hr1 & Hf1).
  destruct (m s) as [[a|e] s1]; cbn [fst snd] in *.
  - destruct (Hk a s1) as (evs2 & H2 & Hr2 & Hf2). exists (evs1 ++ evs2).
    rewrite H2, H1, app_assoc, requests_sent_app, refreshes_app.
    split; [reflexivity|]. split; lia.
  - exists evs1. split; [exact H1|]. split; lia.
Qed.

Lemma bounded_silent {A} (m : M A) :
  (forall s, trace (snd (m s)) = trace s) -> bounded 0 0 m.
Proof.
  intros H s. exists []. rewrite H, app_nil_r. split; [reflexivity|]. split; reflexivity.
Qed.

Ltac close_bounded :=
  read_trace; eexists;
  split; [first [ rewrite <- ?app_assoc; reflexivity | symmetry; apply app_nil_r ]|];
  split; cbn; lia.

Lemma bounded_get (path : string) (retry : bool) : bounded 2 3 (get world path retry).
Proof.
  intros [[cfg [[? ? ? ? ? ?]|]] k tr]; exec; close_bounded.
Qed.

Lemma bounded_upload_homework (homework_id : Z) (answer_text : option string)
    (file : option FileArg) (hours minutes : Z) :
  bounded 1 1 (upload_homework world py_str homework_id answer_text file hours minutes).
Proof.
  intros [[cfg [[? ? ? ? ? ?]|]] k tr]; exec; close_bounded.
Qed.

Lemma bounded_delete_homework (homework_id : Z + string) :
  bounded 1 1 (delete_homework world homework_id).
Proof.
  intros [[cfg [[? ? ? ? ? ?]|]] k tr]; exec; close_bounded.
Qed.

Lemma bounded_resolve_group_id : bounded 2 3 (resolve_group_id world).
Proof.
  unfold resolve_group_id.
  apply (bounded_bind 0 0 2 3); [apply bounded_silent; reflexivity|].
  intros cd. match goal with |- bounded _ _ (if ?b then _ else _) => destruct b end.
  - apply (bounded_weaken (2 + 0) (3 + 0)); [lia | lia |].
    apply bounded_bind; [apply bounded_get|].
    intros user_info. apply bounded_silent. intros s.
    unfold subscript, the_client_data. unfold_monad.
    repeat (case_step; cbn); reflexivity.
  - apply (bounded_weaken 0 0); [lia | lia |]. apply bounded_silent. reflexivity.
Qed.

(** No call sends more than two requests or logs in more than three times,
    the two homework accessors, which may get the profile first, no more
    than four and six; an upload or a deletion sends one request at most
    and logs in once at most. *)
Theorem calls_are_bounded (c : Call) (s : State) :
  (requests_sent (events_of world py_str c s) <= if is_homework_call c then 4 else 2)%nat /\
  (refreshes (events_of world py_str c s) <= if is_homework_call c then 6 else 3)%nat /\
  (match c with
   | CUpload _ _ _ _ _ | CDelete _ =>
       (requests_sent (events_of world py_str c s) <= 1)%nat /\
       (refreshes (events_of world py_str c s) <= 1)%nat
   | _ => True
   end).
Proof.
  assert (Hb : forall n l, bounded n l (run_call world py_str c) ->
                 (requests_sent (events_of world py_str c s) <= n)%nat /\
                 (refreshes (events_of world py_str c s) <= l)%nat).
  { intros n l H. destruct (H s) as (evs & Ht & Hr & Hf).
    unfold events_of, run_state. rewrite (new_events_app _ _ evs Ht). split; assumption. }
  destruct c; cbn [run_call is_homework_call] in *.
  - destruct (Hb 2%nat 3%nat (bounded_get _ _)). auto.
  - destruct (Hb 2%nat 3%nat (bounded_get _ _)). auto.
  - destruct (Hb 2%nat 3%nat (bounded_get _ _)). auto.
  - assert (H : bounded 2 3 (read_accessor world decode path)).
    { apply (bounded_weaken (2 + 0) (3 + 0)); [lia | lia |].
      apply bounded_bind; [apply bounded_get|]. intros r. apply bounded_silent. reflexivity. }
    destruct (Hb 2%nat 3%nat H). auto.
  - assert (H : bounded 4 6 (get_homework_by_type world py_str page homework_type)).
    { apply (bounded_bind 2 3 2 3); [apply bounded_resolve_group_id|]. intros _.
      apply (bounded_bind 0 0 2 3).
      - apply bounded_silent. intros s0. unfold the_client_data. unfold_monad.
        destruct (client_data (self s0)); reflexivity.
      - intros d. apply bounded_get. }
    destruct (Hb 4%nat 6%nat H). auto.
  - assert (H : bounded 4 6 (get_homework_list world py_str page status homework_type)).
    { apply (bounded_bind 2 3 2 3); [apply bounded_resolve_group_id|]. intros _.
      apply (bounded_bind 0 0 2 3).
      - apply bounded_silent. intros s0. unfold the_client_data. unfold_monad.
        destruct (client_data (self s0)); reflexivity.
      - intros d. apply bounded_get. }
    destruct (Hb 4%nat 6%nat H). auto.
  - destruct (Hb 1%nat 1%nat (bounded_upload_homework _ _ _ _ _)).
    repeat split; lia.
  - assert (H : bounded 1 1 (b <- delete_homework world homework_id ;; ret (JBool b))).
    { apply (bounded_weaken (1 + 0) (1 + 0)); [lia | lia |].
      apply bounded_bind; [apply bounded_delete_homework|].
      intros b. apply bounded_silent. reflexivity. }
    destruct (Hb 1%nat 1%nat H). repeat split; lia.
Qed.

End More.
(** ** The theorems at work on concrete providers *)

Import Scenario.

(** C1, as stated, fails.  The provider hands out [expires_in_access = 3600]
    while the clock stands at 1700000000000 ms: both [initialize] and
    [update_token] store 3600000, whatever the clock says, and not
    1700003600000. *)
Lemma login_expiry_is_not_now_plus_lifetime :
  login_at always_401 (init cfg) = ReplyObject user /\
  run_result (initialize always_401 (init cfg)) = Ok tt /\
  (forall k, ~ expiry_is_now_plus_lifetime always_401 k user
                 (run_state (initialize always_401 (init cfg)))) /\
  login_at always_401 (logged_in always_401 cfg) = ReplyObject user /\
  run_result (update_token always_401 (logged_in always_401 cfg)) = Ok tt /\
  (forall k, ~ expiry_is_now_plus_lifetime always_401 k user
                 (run_state (update_token always_401 (logged_in always_401 cfg)))).
Proof.
  repeat split.
  - intros k (d & expires & Hd & He & Heq).
    injection Hd as <-. injection He as <-.
    vm_compute in Heq. discriminate Heq.
  - intros k (d & expires & Hd & He & Heq).
    injection Hd as <-. injection He as <-.
    vm_compute in Heq. discriminate Heq.
Qed.

Lemma login_stores_provider_expiry_witness :
  login_at always_401 (init cfg) = ReplyObject user /\
  token_given (config (self (init cfg))) = false /\
  exists d,
    client_data (self (run_state (initialize always_401 (init cfg)))) = Some d /\
    ClientData.token_expires_at d = Some 3600000.
Proof.
  split; [reflexivity|]. split; [reflexivity|].
  destruct (login_stores_provider_expiry always_401 (init cfg) user eq_refl)
    as [Hinitialize _].
  destruct (Hinitialize eq_refl) as (_ & Hstored & _).
  exact Hstored.
Defined.

(** C2, as stated, fails when the forced refresh is rejected: the first
    request is answered 401, the one forced refresh follows, the provider
    turns the login down, and the call raises with the field errors; the
    request is not sent again. *)
Lemma rejected_refresh_ends_without_retry :
  initialized (self (logged_in refresh_rejected cfg)) = true /\
  ClientConfig.on_unauthorized (config (self (logged_in refresh_rejected cfg))) = None /\
  first_reply
    (get_events refresh_rejected "count/homework" true (logged_in refresh_rejected cfg))
    = Some (Responded (mkResponse 401 "null" (Some JNull))) /\
  forced_refreshes
    (get_events refresh_rejected "count/homework" true (logged_in refresh_rejected cfg))
    = 1%nat /\
  requests_sent
    (after_send
       (get_events refresh_rejected "count/homework" true (logged_in refresh_rejected cfg)))
    = 0%nat /\
  requests_sent
    (after_send
       (get_events refresh_rejected "count/homework" true (logged_in refresh_rejected cfg)))
    <> 1%nat /\
  run_result (get refresh_rejected "count/homework" true (logged_in refresh_rejected cfg))
    = Raise (AuthenticationError [AuthError.mk "password" "changed"]).
Proof.
  repeat split. vm_compute. discriminate.
Qed.

Lemma unauthorized_single_retry_witness :
  initialized (self (logged_in early_401 cfg)) = true /\
  ClientConfig.on_unauthorized (config (self (logged_in early_401 cfg))) = None /\
  run_result (get early_401 "settings/user-info" true (logged_in early_401 cfg))
    = Raise UnauthorizedError /\
  requests_sent
    (get_events early_401 "settings/user-info" true (logged_in early_401 cfg))
    = 2%nat /\
  initialized (self (logged_in renews_401 cfg)) = true /\
  token_of (self (logged_in renews_401 cfg)) = Some "token-1" /\
  option_map (header "authorization")
    (first_request
       (get_events renews_401 "settings/user-info" true (logged_in renews_401 cfg)))
    = Some (Some "Bearer token-1") /\
  option_map (header "authorization")
    (first_request
       (after_send
          (get_events renews_401 "settings/user-info" true (logged_in renews_401 cfg))))
    = Some (Some "Bearer token-2") /\
  token_of
    (self (run_state (get renews_401 "settings/user-info" true (logged_in renews_401 cfg))))
    = Some "token-2" /\
  expiry_of
    (self (run_state (get renews_401 "settings/user-info" true (logged_in renews_401 cfg))))
    = Some 1700003600000.
Proof.
  split; [reflexivity|]. split; [reflexivity|].
  destruct (unauthorized_single_retry early_401 (logged_in early_401 cfg)
              "settings/user-info" eq_refl eq_refl) as (_ & _ & _ & _ & Hretry).
  destruct (Hretry (mkResponse 401 "null" (Some JNull)) eq_refl eq_refl)
    as (_ & _ & _ & _ & Hsecond & _).
  destruct (Hsecond (mkResponse 401 "null" (Some JNull)) eq_refl eq_refl) as [Hraise _].
  split; [exact Hraise|]. split; [reflexivity|].
  split; [reflexivity|]. split; [reflexivity|]. split; [reflexivity|].
  destruct (unauthorized_single_retry renews_401 (logged_in renews_401 cfg)
              "settings/user-info" eq_refl eq_refl) as (_ & _ & Htoken & Hexpiry & Hrenew).
  destruct (Hrenew (mkResponse 401 "null" (Some JNull)) eq_refl eq_refl)
    as (_ & _ & _ & _ & _ & Hbears).
  split; [|split; [rewrite Htoken; reflexivity | rewrite Hexpiry; reflexivity]].
  destruct (first_request
              (after_send
                 (get_events renews_401 "settings/user-info" true
                    (logged_in renews_401 cfg)))) as [req2|] eqn:Hreq2;
    [|vm_compute in Hreq2; discriminate Hreq2].
  destruct (Hbears req2 eq_refl) as (renewal & Hlast & Hauth & _).
  vm_compute in Hlast. injection Hlast as <-.
  cbn [option_map]. rewrite Hauth. reflexivity.
Defined.

Lemma unauthorized_with_handler_witness :
  initialized (self (logged_in early_401 cfg_with_handler)) = true /\
  ClientConfig.on_unauthorized (config (self (logged_in early_401 cfg_with_handler)))
    = Some 7%nat /\
  run_result (get early_401 "count/homework" true (logged_in early_401 cfg_with_handler))
    = Ok JNull /\
  after_send
    (get_events early_401 "count/homework" true (logged_in early_401 cfg_with_handler))
    = [EvCallback 7%nat "count/homework"].
Proof.
  split; [reflexivity|]. split; [reflexivity|].
  destruct (unauthorized_with_handler early_401 (logged_in early_401 cfg_with_handler)
              "count/homework" true 7%nat (mkResponse 401 "null" (Some JNull))
              eq_refl eq_refl eq_refl eq_refl) as (Hresult & Hafter & _).
  split; [exact Hresult | exact Hafter].
Defined.

Lemma failed_login_leaves_no_session_witness :
  client_data (self (init cfg)) = None /\
  token_given (config (self (init cfg))) = false /\
  login_at rejects (init cfg) = ReplyArray [AuthError.mk "password" "wrong"] /\
  run_result (initialize rejects (init cfg))
    = Raise (AuthenticationError [AuthError.mk "password" "wrong"]) /\
  Forall (fun r => r = Raise UninitializedClientError)
    (fst (run_calls rejects str [CUserInfo; CDelete (inl 12); CHomeworkByType 1 HOMEWORK]
            (run_state (initialize rejects (init cfg))))).
Proof.
  split; [reflexivity|]. split; [reflexivity|]. split; [reflexivity|].
  destruct (failed_login_leaves_no_session rejects str (init cfg)
              [AuthError.mk "password" "wrong"]
              [CUserInfo; CDelete (inl 12); CHomeworkByType 1 HOMEWORK]
              eq_refl eq_refl eq_refl) as (Hraise & _ & Hcalls & _).
  split; [exact Hraise | exact Hcalls].
Defined.

Lemma session_absent_or_populated_witness :
  reachable early_401 str (run_state (run_op early_401 str OpInitialize (init cfg))) /\
  exists d token expires,
    client_data (self (run_state (run_op early_401 str OpInitialize (init cfg)))) = Some d /\
    ClientData.access_token d = Some token /\
    ClientData.token_expires_at d = Some expires.
Proof.
  assert (Hreach : reachable early_401 str
                     (run_state (run_op early_401 str OpInitialize (init cfg)))).
  { apply reach_op. apply reach_init. }
  split; [exact Hreach|].
  destruct (session_absent_or_populated early_401 str _ Hreach) as [[Habsent | Hset] _].
  - discriminate Habsent.
  - exact Hset.
Defined.

Lemma refresh_before_send_witness :
  initialized (self (logged_in always_401 cfg)) = true /\
  refreshes (before_send (events_of always_401 str (CDelete (inl 12))
                            (logged_in always_401 cfg))) = 1%nat /\
  initialized (self (logged_in early_401 cfg)) = true /\
  refreshes (before_send (events_of early_401 str (CDelete (inl 12))
                            (logged_in early_401 cfg))) = 0%nat /\
  initialized (self (logged_in renews cfg)) = true /\
  token_of (self (logged_in renews cfg)) = Some "token-1" /\
  refreshes (before_send (events_of renews str (CDelete (inl 12))
                            (logged_in renews cfg))) = 1%nat /\
  option_map (header "authorization")
    (first_request (events_of renews str (CDelete (inl 12)) (logged_in renews cfg)))
    = Some (Some "Bearer token-2") /\
  token_of (self (run_state (run_call renews str (CDelete (inl 12))
                               (logged_in renews cfg))))
    = Some "token-2" /\
  expiry_of (self (run_state (run_call renews str (CDelete (inl 12))
                                (logged_in renews cfg))))
    = Some 1700003600000.
Proof.
  split; [reflexivity|]. split.
  { exact (proj1 (refresh_before_send always_401 str (CDelete (inl 12))
                    (logged_in always_401 cfg) eq_refl)). }
  split; [reflexivity|]. split.
  { exact (proj1 (refresh_before_send early_401 str (CDelete (inl 12))
                    (logged_in early_401 cfg) eq_refl)). }
  split; [reflexivity|]. split; [reflexivity|].
  destruct (refresh_before_send renews str (CDelete (inl 12)) (logged_in renews cfg) eq_refl)
    as (Hrefresh & _ & _ & Hbears & Htoken & Hexpiry).
  split; [exact Hrefresh|].
  split; [|split; [rewrite Htoken; reflexivity | rewrite Hexpiry; reflexivity]].
  destruct (first_request (events_of renews str (CDelete (inl 12)) (logged_in renews cfg)))
    as [req|] eqn:Hreq; [|vm_compute in Hreq; discriminate Hreq].
  destruct (Hbears req eq_refl) as [_ Hrenewed].
  destruct (Hrenewed eq_refl) as (renewal & Hlast & Hauth).
  vm_compute in Hlast. injection Hlast as <-.
  cbn [option_map]. rewrite Hauth. reflexivity.
Defined.

Lemma update_token_frame_witness :
  run_result (update_token early_401 (logged_in early_401 cfg)) = Ok tt /\
  exists d',
    client_data (self (run_state (update_token early_401 (logged_in early_401 cfg))))
      = Some d' /\
    ClientData.language d' = "en" /\
    ClientData.group_id d' = JNull.
Proof.
  split; [reflexivity|].
  destruct (update_token_frame early_401 (logged_in early_401 cfg) _ eq_refl eq_refl)
    as (u & d' & _ & Hd' & _ & _ & _ & Hlang & _ & Hgid & _).
  exists d'. split; [exact Hd'|]. split; [exact Hlang | exact Hgid].
Defined.

Lemma is_token_expired_fresh_witness :
  session_ok (self (logged_in early_401 cfg)) = true /\
  exists b : bool,
    run_result (is_token_expired early_401 (logged_in early_401 cfg)) = Ok b /\
    self (run_state (is_token_expired early_401 (logged_in early_401 cfg)))
      = self (logged_in early_401 cfg).
Proof.
  split; [reflexivity|].
  destruct (is_token_expired_fresh early_401 (logged_in early_401 cfg) eq_refl)
    as (b & Hb & _ & Hself & _).
  exists b. split; [exact Hb | exact Hself].
Defined.

Lemma delete_reports_non_null_witness :
  initialized (self (logged_in deletes_null cfg)) = true /\
  ok (mkResponse 200 "null" (Some JNull)) = true /\
  run_result (delete_homework deletes_null (inl 404) (logged_in deletes_null cfg))
    = Ok false.
Proof.
  split; [reflexivity|]. split; [reflexivity|].
  destruct (delete_reports_non_null deletes_null (logged_in deletes_null cfg) (inl 404)
              (mkResponse 200 "null" (Some JNull)) eq_refl eq_refl eq_refl)
    as (_ & _ & Hnull).
  exact (Hnull eq_refl).
Defined.

Lemma writes_raise_without_retry_witness :
  initialized (self (logged_in early_401 cfg_with_handler)) = true /\
  run_result (delete_homework early_401 (inl 12) (logged_in early_401 cfg_with_handler))
    = Raise (Exception (ArgStr "null")) /\
  callbacks (events_of early_401 str (CDelete (inl 12))
               (logged_in early_401 cfg_with_handler)) = 0%nat /\
  run_result (upload_homework early_401 str 12 (Some "done") None 99 99
                (logged_in early_401 cfg_with_handler))
    = Raise (Exception (ArgJson JNull)).
Proof.
  split; [reflexivity|].
  destruct (writes_raise_without_retry early_401 str (logged_in early_401 cfg_with_handler)
              (mkResponse 401 "null" (Some JNull)) eq_refl)
    as (H401 & Hupload & Hdelete).
  destruct (Hdelete (inl 12) eq_refl (H401 eq_refl)) as (Hraise & _ & _ & Hcb & _).
  destruct (Hupload 12 (Some "done") None 99 99 eq_refl (H401 eq_refl)) as (Hup & _).
  split; [exact Hraise|]. split; [exact Hcb | exact Hup].
Defined.

(** ** The further theorems at work *)

Lemma decode_list_in_order_witness :
  decode_list Review (JArr [Cases.review]) =
    Ok [mkInstance Review
          [("date", JStr "2024-03-09"); ("full_spec", JStr "Algorithms");
           ("message", JStr "good"); ("spec", JStr "ALG"); ("teacher", JStr "T.")]] /\
  length [mkInstance Review
            [("date", JStr "2024-03-09"); ("full_spec", JStr "Algorithms");
             ("message", JStr "good"); ("spec", JStr "ALG"); ("teacher", JStr "T.")]]
  = length [Cases.review].
Proof.
  split; [reflexivity|].
  exact (proj1 (decode_list_in_order Review [Cases.review] _ eq_refl)).
Defined.

Lemma format_date_injective_witness :
  plain_date Cases.day /\ plain_date (mkDate 2024 3 10) /\
  (format_date Cases.day = format_date (mkDate 2024 3 10) -> Cases.day = mkDate 2024 3 10).
Proof.
  assert (H1 : plain_date Cases.day) by (unfold plain_date; cbn; lia).
  assert (H2 : plain_date (mkDate 2024 3 10)) by (unfold plain_date; cbn; lia).
  split; [exact H1|]. split; [exact H2|].
  destruct (format_date_injective Cases.day (mkDate 2024 3 10) H1 H2) as (_ & _ & _ & Hinj).
  exact Hinj.
Defined.

Lemma update_token_creates_no_session_witness :
  client_data (self (init Scenario.cfg)) = None /\
  run_result (update_token (Cases.serves 200 "[]" (Some (JArr []))) (init Scenario.cfg))
    = Ok tt /\
  client_data (self (run_state
    (update_token (Cases.serves 200 "[]" (Some (JArr []))) (init Scenario.cfg)))) = None.
Proof.
  split; [reflexivity|].
  destruct (update_token_creates_no_session (Cases.serves 200 "[]" (Some (JArr [])))
              Scenario.str (init Scenario.cfg) eq_refl) as (Hnone & _ & Hok & _).
  split; [exact (Hok Cases.user eq_refl) | exact Hnone].
Defined.

Lemma failed_refresh_blocks_call_witness :
  initialized (self (Cases.logged_in Cases.lapsed Scenario.cfg)) = true /\
  expired_at (now_ms Cases.lapsed (tick (Cases.logged_in Cases.lapsed Scenario.cfg)))
    (self (Cases.logged_in Cases.lapsed Scenario.cfg)) = true /\
  run_result (run_call Cases.lapsed Scenario.str (CDelete (inl 12))
                (Cases.logged_in Cases.lapsed Scenario.cfg))
    = Raise (AuthenticationError [AuthError.mk "password" "changed"]) /\
  requests_sent (events_of Cases.lapsed Scenario.str (CDelete (inl 12))
                   (Cases.logged_in Cases.lapsed Scenario.cfg)) = 0%nat.
Proof.
  split; [reflexivity|]. split; [reflexivity|].
  destruct (failed_refresh_blocks_call Cases.lapsed Scenario.str (CDelete (inl 12))
              (Cases.logged_in Cases.lapsed Scenario.cfg)
              (AuthenticationError [AuthError.mk "password" "changed"])
              eq_refl eq_refl eq_refl) as (Hraise & _ & Hsent & _).
  split; [exact Hraise | exact Hsent].
Defined.

Lemma get_returns_body_of_any_status_witness :
  initialized (self (Cases.logged_in (Cases.serves 500 "{}" (Some (JObj []))) Scenario.cfg))
    = true /\
  run_result (get (Cases.serves 500 "{}" (Some (JObj []))) "count/homework" true
                (Cases.logged_in (Cases.serves 500 "{}" (Some (JObj []))) Scenario.cfg))
    = Ok (JObj []).
Proof.
  split; [reflexivity|].
  destruct (get_returns_body_of_any_status (Cases.serves 500 "{}" (Some (JObj [])))
              (Cases.logged_in (Cases.serves 500 "{}" (Some (JObj []))) Scenario.cfg)
              "count/homework" true (mkResponse 500 "{}" (Some (JObj [])))
              eq_refl eq_refl) as (Hres & _).
  - discriminate.
  - exact Hres.
Defined.

Lemma transport_failure_is_not_retried_witness :
  initialized (self (Cases.logged_in Cases.unreachable Scenario.cfg)) = true /\
  run_result (run_call Cases.unreachable Scenario.str (CGet "count/homework" true)
                (Cases.logged_in Cases.unreachable Scenario.cfg))
    = Raise (RequestException "connection refused") /\
  requests_sent (events_of Cases.unreachable Scenario.str (CGet "count/homework" true)
                   (Cases.logged_in Cases.unreachable Scenario.cfg)) = 1%nat.
Proof.
  split; [reflexivity|].
  destruct (transport_failure_is_not_retried Cases.unreachable Scenario.str
              (CGet "count/homework" true)
              (Cases.logged_in Cases.unreachable Scenario.cfg)
              (RequestException "connection refused") eq_refl eq_refl eq_refl)
    as (Hraise & Hsent & _).
  split; [exact Hraise | exact Hsent].
Defined.

Lemma get_returns_last_body_witness :
  initialized (self (Cases.logged_in Cases.recovers Scenario.cfg)) = true /\
  run_result (get Cases.recovers "reviews/index/list" true
                (Cases.logged_in Cases.recovers Scenario.cfg)) = Ok (JArr []) /\
  exists resp,
    last_reply (get_events Cases.recovers "reviews/index/list" true
                  (Cases.logged_in Cases.recovers Scenario.cfg)) = Some (Responded resp).
Proof.
  split; [reflexivity|]. split; [reflexivity|].
  destruct (get_returns_last_body Cases.recovers
              (Cases.logged_in Cases.recovers Scenario.cfg)
              "reviews/index/list" true (JArr []) eq_refl eq_refl) as (resp & Hlast & _).
  exists resp. exact Hlast.
Defined.

Lemma request_carries_current_token_witness :
  initialized (self (Cases.logged_in (Cases.serves 200 "[]" (Some (JArr []))) Cases.cfg_with_token))
    = true /\
  header "authorization"
    (get_request
       (ClientData.mk Scenario.credentials "" None (Some "given") (Some 1800000000000) (JInt 7))
       "count/homework")
    = Some "Bearer given".
Proof.
  split; [reflexivity|].
  destruct (request_carries_current_token (Cases.serves 200 "[]" (Some (JArr [])))
              (Cases.logged_in (Cases.serves 200 "[]" (Some (JArr []))) Cases.cfg_with_token)
              "count/homework" true _ eq_refl eq_refl) as (Hauth & _).
  exact Hauth.
Defined.

Lemma retry_carries_fresh_token_witness :
  initialized (self (Cases.logged_in Cases.recovers Scenario.cfg)) = true /\
  ClientConfig.on_unauthorized (config (self (Cases.logged_in Cases.recovers Scenario.cfg)))
    = None /\
  run_result (get Cases.recovers "reviews/index/list" true
                (Cases.logged_in Cases.recovers Scenario.cfg)) = Ok (JArr []) /\
  token_of (self (run_state (get Cases.recovers "reviews/index/list" true
                               (Cases.logged_in Cases.recovers Scenario.cfg))))
    = Some "token-2".
Proof.
  split; [reflexivity|]. split; [reflexivity|].
  destruct (retry_carries_fresh_token Cases.recovers
              (Cases.logged_in Cases.recovers Scenario.cfg) "reviews/index/list"
              (mkResponse 401 "null" (Some JNull)) (mkResponse 200 "[]" (Some (JArr [])))
              eq_refl eq_refl eq_refl eq_refl eq_refl) as (Hres & user & Hlast & Htok & _).
  - discriminate.
  - split; [exact Hres|]. injection Hlast as <-. exact Htok.
Defined.

Lemma group_id_is_resolved_once_witness :
  client_data (self (Cases.logged_in Cases.school Scenario.cfg))
    = Some (ClientData.mk Scenario.credentials "en" None (Some "token-2")
              (Some 1700003600000) JNull) /\
  run_result (get_homework_by_type Cases.school Scenario.str 1 HOMEWORK
                (Cases.logged_in Cases.school Scenario.cfg)) = Ok (JArr [Cases.review]) /\
  group_id_of (self (run_state (get_homework_by_type Cases.school Scenario.str 1 HOMEWORK
                                  (Cases.logged_in Cases.school Scenario.cfg))))
    = JInt 42.
Proof.
  split; [reflexivity|]. split; [reflexivity|].
  destruct (group_id_is_resolved_once Cases.school Scenario.str
              (Cases.logged_in Cases.school Scenario.cfg) _ 1 HOMEWORK eq_refl)
    as [_ Hfetch].
  destruct (Hfetch (JArr [Cases.review]) eq_refl eq_refl)
    as (members & v & s1 & Hu & Hv & _ & Hgid & _).
  injection Hu as <- _. injection Hv as <-. exact Hgid.
Defined.

Lemma profile_without_group_id_witness :
  client_data (self (Cases.logged_in (Cases.serves 200 "{}" (Some (JObj []))) Scenario.cfg))
    = Some (ClientData.mk Scenario.credentials "en" None (Some "token-2")
              (Some 1700003600000) JNull) /\
  run_result (get_homework_by_type (Cases.serves 200 "{}" (Some (JObj []))) Scenario.str
                1 HOMEWORK
                (Cases.logged_in (Cases.serves 200 "{}" (Some (JObj []))) Scenario.cfg))
    = Raise GroupIdError.
Proof.
  split; [reflexivity|].
  destruct (profile_without_group_id (Cases.serves 200 "{}" (Some (JObj []))) Scenario.str
              (Cases.logged_in (Cases.serves 200 "{}" (Some (JObj []))) Scenario.cfg)
              _ _ 1 HOMEWORK (JObj []) eq_refl eq_refl eq_refl) as (Hrun & _).
  - intros members Hm Hne. injection Hm as <-. contradiction Hne. reflexivity.
  - unfold run_result. rewrite Hrun. reflexivity.
Defined.

Lemma handled_401_fails_group_id_witness :
  initialized (self (Cases.logged_in (Cases.serves 401 "null" (Some JNull))
                       Cases.cfg_with_handler)) = true /\
  run_result (get_homework_by_type (Cases.serves 401 "null" (Some JNull)) Scenario.str
                1 HOMEWORK
                (Cases.logged_in (Cases.serves 401 "null" (Some JNull)) Cases.cfg_with_handler))
    = Raise GroupIdError /\
  callbacks (events_of (Cases.serves 401 "null" (Some JNull)) Scenario.str
               (CHomeworkByType 1 HOMEWORK)
               (Cases.logged_in (Cases.serves 401 "null" (Some JNull)) Cases.cfg_with_handler))
    = 1%nat.
Proof.
  split; [reflexivity|].
  destruct (handled_401_fails_group_id (Cases.serves 401 "null" (Some JNull)) Scenario.str
              (Cases.logged_in (Cases.serves 401 "null" (Some JNull)) Cases.cfg_with_handler)
              _ 1 HOMEWORK 3%nat (mkResponse 401 "null" (Some JNull))
              eq_refl eq_refl eq_refl eq_refl eq_refl eq_refl) as (Hraise & _ & _ & Hcb).
  split; [exact Hraise | exact Hcb].
Defined.

Lemma handled_401_breaks_record_accessors_witness :
  initialized (self (Cases.logged_in (Cases.serves 401 "null" (Some JNull))
                       Cases.cfg_with_handler)) = true /\
  exists what,
    run_result (run_list (Cases.serves 401 "null" (Some JNull)) Cases.day_of
                  (AScheduleByDate (Some Cases.day))
                  (Cases.logged_in (Cases.serves 401 "null" (Some JNull))
                     Cases.cfg_with_handler))
    = Raise (TypeError what).
Proof.
  split; [reflexivity|].
  destruct (handled_401_breaks_record_accessors (Cases.serves 401 "null" (Some JNull))
              Scenario.str Cases.day_of
              (Cases.logged_in (Cases.serves 401 "null" (Some JNull)) Cases.cfg_with_handler)
              3%nat (mkResponse 401 "null" (Some JNull)) eq_refl eq_refl eq_refl)
    as [Hlist _].
  exact (proj1 (Hlist (AScheduleByDate (Some Cases.day)) eq_refl)).
Defined.

Lemma list_accessor_decodes_last_body_witness :
  initialized (self (Cases.logged_in Cases.school Scenario.cfg)) = true /\
  run_result (run_list Cases.school Cases.day_of AReviews
                (Cases.logged_in Cases.school Scenario.cfg))
    = Ok [mkInstance Review
            [("date", JStr "2024-03-09"); ("full_spec", JStr "Algorithms");
             ("message", JStr "good"); ("spec", JStr "ALG"); ("teacher", JStr "T.")]] /\
  exists resp payload,
    json resp = Some payload /\
    decode_list Review payload
    = Ok [mkInstance Review
            [("date", JStr "2024-03-09"); ("full_spec", JStr "Algorithms");
             ("message", JStr "good"); ("spec", JStr "ALG"); ("teacher", JStr "T.")]].
Proof.
  split; [reflexivity|]. split; [reflexivity|].
  destruct (list_accessor_decodes_last_body Cases.school Cases.day_of AReviews
              (Cases.logged_in Cases.school Scenario.cfg) _ eq_refl eq_refl)
    as (resp & payload & _ & _ & Hjson & Hdec).
  exists resp, payload. split; [exact Hjson | exact Hdec].
Defined.
